(** * The chat input controller ([ChatInputArea]) of the web UI

    A shallow embedding of the event handlers of the [ChatInputArea] React
    component and the properties of its interaction model: the submit guard
    and clear-on-send, file de-duplication, paste interception, saving pasted
    text as an artifact, the session-change reset, slash-command detection
    and prompt insertion, and the follow-up auto-submit path. The handlers
    of the prompts page and of the projects page, which hand prompts to the
    chat input and receive its create-template command, follow in the
    modules [PromptsPage] and [ProjectsPage].

    Conventions of the embedding:
    - a JavaScript string is the list of its UTF-16 code units;
    - [null] and [undefined] are both [None];
    - component state ([useState]) and refs ([useRef]) are the fields of
      [State]; values obtained from hooks and props are the fields of [Ctx];
    - a handler is a computation in the monad [M]: it threads the state,
      appends to a trace of the outward calls it makes ([Effect]), and may
      end by a thrown exception;
    - a handler closes over the values of the render it was created in, so
      every handler takes that render's state [rd] and reads state variables
      from it, while setters (and functional updates [prev => ...]) act on
      the state that is current when they run;
    - an awaited call into the Session context takes its outcome as an
      argument (the handler runs to completion in one step). *)

From Stdlib Require Import List NArith ZArith Bool String Ascii Lia.
From Stdlib Require Import DecimalString.
Import ListNotations.

(** ** JavaScript strings *)

Definition str := list N.

Module Js.

(** An ASCII literal as code units. *)
Definition lit (s : string) : str :=
  List.map N_of_ascii (list_ascii_of_string s).

(** [ToBoolean] on a string: only the empty string is falsy. *)
Definition truthy (s : str) : bool :=
  match s with [] => false | _ :: _ => true end.

(** [ToBoolean] on [string | null | undefined]. *)
Definition truthy_opt (o : option str) : bool :=
  match o with Some s => truthy s | None => false end.

Fixpoint eqb (a b : str) : bool :=
  match a, b with
  | [], [] => true
  | x :: a', y :: b' => N.eqb x y && eqb a' b'
  | _, _ => false
  end.

(** [===] on [string | null | undefined] values. *)
Definition opt_eqb (a b : option str) : bool :=
  match a, b with
  | None, None => true
  | Some x, Some y => eqb x y
  | _, _ => false
  end.

(** The code units [String.prototype.trim] strips: WhiteSpace and
    LineTerminator of ECMA-262 (all in the basic plane). *)
Definition isWhiteSpace (c : N) : bool :=
  ((9 <=? c) && (c <=? 13) || (c =? 32) || (c =? 160) || (c =? 5760)
   || (8192 <=? c) && (c <=? 8202) || (c =? 8232) || (c =? 8233)
   || (c =? 8239) || (c =? 8287) || (c =? 12288) || (c =? 65279))%N.

Fixpoint trimStart (s : str) : str :=
  match s with
  | [] => []
  | c :: s' => if isWhiteSpace c then trimStart s' else s
  end.

Definition trimEnd (s : str) : str := rev (trimStart (rev s)).

Definition trim (s : str) : str := trimEnd (trimStart s).

(** Clamping of an index argument of [substring] to [0 .. length]. *)
Definition clamp (s : str) (i : Z) : nat :=
  Z.to_nat (Z.min (Z.max i 0) (Z.of_nat (List.length s))).

(** [s.substring(a, b)]: both ends clamped, swapped when [a > b]. *)
Definition substring (s : str) (a b : Z) : str :=
  let a' := clamp s a in
  let b' := clamp s b in
  let lo := Nat.min a' b' in
  let hi := Nat.max a' b' in
  firstn (hi - lo) (skipn lo s).

(** [s.substring(a)]. *)
Definition substring_from (s : str) (a : Z) : str := skipn (clamp s a) s.

(** [s[i]]: [undefined] outside the string. *)
Definition at_ (s : str) (i : Z) : option N :=
  if (i <? 0)%Z then None else nth_error s (Z.to_nat i).

(** [s.length]. *)
Definition len (s : str) : Z := Z.of_nat (List.length s).

(** [s.includes(c)] for a one-unit needle. *)
Definition includes (s : str) (c : N) : bool := existsb (N.eqb c) s.

(** [s.lastIndexOf(c)] for a one-unit needle, [-1] when absent. *)
Fixpoint lastIndexOf_from (s : str) (c : N) (i : Z) (found : Z) : Z :=
  match s with
  | [] => found
  | x :: s' => lastIndexOf_from s' c (i + 1) (if N.eqb x c then i else found)
  end.

Definition lastIndexOf (s : str) (c : N) : Z := lastIndexOf_from s c 0 (-1).

(** The decimal rendering of a non-negative integer in a template. *)
Definition of_N (n : N) : str :=
  lit (NilEmpty.string_of_uint (N.to_uint n)).

Definition slash : N := 47.
Definition space : N := 32.
Definition newline : N := 10.
Definition dquote : N := 34.

Definition asciiLower (c : N) : N :=
  if ((65 <=? c) && (c <=? 90))%N then (c + 32)%N else c.

(** The [type] a [Blob] or [File] keeps of the [type] option it is built
    with (File API): the empty string when a code unit lies outside
    U+0020 .. U+007E, and the ASCII lower-case form otherwise. *)
Definition blobType (t : str) : str :=
  if forallb (fun c => (32 <=? c) && (c <=? 126))%N t
  then List.map asciiLower t
  else [].

End Js.

(** ** Data model *)

(** A browser [File]. The de-duplication key is ([name], [size],
    [lastModified]); [blob] stands for the rest of the object (its bytes and
    its identity), so two files with one key can still be told apart. *)
Record File := mkFile {
  name : str;
  size : Z;
  lastModified : Z;
  blob : nat
}.

Record PastedArtifactItem := mkItem {
  id : str;
  artifactId : str;
  filename : str;
  timestamp : N
}.

(** The part of a [PromptGroup] the component builds. *)
Record PromptGroup := mkGroup {
  group_id : option str;
  group_name : option str;
  prompt_text : str
}.

(** [location.state] as the router hands it over. *)
Record LocationState := mkLoc {
  promptText : option str;
  groupId : option str;
  groupName : option str
}.

(** Component state: the [useState] cells and the two value refs. *)
Record State := mkState {
  selectedFiles : list File;
  pastedArtifactItems : list PastedArtifactItem;
  pendingPasteContent : option str;
  showArtifactForm : bool;
  contextText : option str;
  inputValue : str;
  showPromptsCommand : bool;
  showVariableDialog : bool;
  pendingPromptGroup : option PromptGroup;
  sttError : option str;
  isRecording : bool;
  prevSessionIdRef : option str;
  prevIsRespondingRef : bool
}.

(** What a render reads from [useChatContext], the props and the DOM. *)
Record Ctx := mkCtx {
  isResponding : bool;
  sessionId : option str;
  artifacts : list str;              (* the file names of [artifacts] *)
  scrollToBottom : bool;             (* is the optional prop given *)
  selectionStart : option Z          (* [chatInputRef.current?.selectionStart] *)
}.

(** A thrown value: an [Error] with its message, or anything else. *)
Inductive Thrown := ErrorObject (message : str) | OtherValue.

(** How an awaited call ends. *)
Inductive Outcome (A : Type) := Resolves (a : A) | Rejects (e : Thrown).
Arguments Resolves {A} a.
Arguments Rejects {A} e.

(** What [uploadArtifactFile] resolves to. *)
Inductive UploadResult :=
| UploadNull
| UploadError (error : str)
| UploadOk (uri : str) (newSessionId : option str).

(** Callbacks handed to [setTimeout]. *)
Inductive Timer :=
| FocusInput
| AutoSubmit (prompt text : str).

(** The second argument of [addNotification]: absent, or ["error"]. *)
Inductive NotificationKind := PlainKind | ErrorKind.

(** Outward calls, in the order a handler makes them. *)
Inductive Effect :=
| PreventDefault
| GetClipboardText
| HandleSubmit (files : list File) (message : str)
| UploadArtifactFile (title mimeType content : str) (session : option str)
    (description : option str)
| AddNotification (message : str) (kind : NotificationKind)
| SetSessionId (session : option str)
| ArtifactsRefetch
| ScrollToBottom
| SetTimeout (callback : Timer) (delay : nat)
| Navigate (to : str) (state : option str)
| NavigateReplaceClearState
| ConsoleError
| ClickFileInput
| ClearFileInputValue
| SetPreviewArtifact (artifact : str)
| OpenSidePanelTab (tab : str).

(** ** The handler monad *)

Inductive Res (A : Type) := Done (a : A) | Raised (e : Thrown).
Arguments Done {A} a.
Arguments Raised {A} e.

Definition M (A : Type) := State -> Res A * State * list Effect.

Definition ret {A} (a : A) : M A := fun s => (Done a, s, []).

Definition bind {A B} (m : M A) (k : A -> M B) : M B :=
  fun s =>
    match m s with
    | (Done a, s1, t1) =>
        match k a s1 with (r, s2, t2) => (r, s2, t1 ++ t2) end
    | (Raised e, s1, t1) => (Raised e, s1, t1)
    end.

Notation "x <- m ;; k" := (bind m (fun x => k))
  (at level 61, m at next level, right associativity).
Notation "m ;; k" := (bind m (fun _ => k))
  (at level 61, right associativity).

Definition skip : M unit := ret tt.

Definition emit (e : Effect) : M unit := fun s => (Done tt, s, [e]).

(** Reading a ref's [current], which is shared by all renders. *)
Definition readRef {A} (f : State -> A) : M A := fun s => (Done (f s), s, []).

Definition modify (f : State -> State) : M unit := fun s => (Done tt, f s, []).

(** [await] on a call whose outcome is [o]. *)
Definition await {A} (call : Effect) (o : Outcome A) : M A :=
  fun s =>
    match o with
    | Resolves a => (Done a, s, [call])
    | Rejects e => (Raised e, s, [call])
    end.

(** [try { body } catch (e) { handler e } finally { fin }]. *)
Definition try_catch_finally (body : M unit) (handler : Thrown -> M unit)
    (fin : M unit) : M unit :=
  fun s =>
    match body s with
    | (r1, s1, t1) =>
        match (match r1 with
               | Done a => (Done a, s1, [])
               | Raised e => handler e s1
               end) with
        | (r2, s2, t2) =>
            match fin s2 with
            | (Done _, s3, t3) => (r2, s3, t1 ++ t2 ++ t3)
            | (Raised e, s3, t3) => (Raised e, s3, t1 ++ t2 ++ t3)
            end
        end
    end.

(** The three components of a finished run. *)
Definition res_of {A} (x : Res A * State * list Effect) : Res A := fst (fst x).
Definition state_of {A} (x : Res A * State * list Effect) : State := snd (fst x).
Definition trace_of {A} (x : Res A * State * list Effect) : list Effect := snd x.

(** ** State setters *)

Definition setSelectedFiles (f : list File -> list File) : M unit :=
  modify (fun s => mkState (f (selectedFiles s)) (pastedArtifactItems s)
    (pendingPasteContent s) (showArtifactForm s) (contextText s) (inputValue s)
    (showPromptsCommand s) (showVariableDialog s) (pendingPromptGroup s)
    (sttError s) (isRecording s) (prevSessionIdRef s) (prevIsRespondingRef s)).

Definition setPastedArtifactItems
    (f : list PastedArtifactItem -> list PastedArtifactItem) : M unit :=
  modify (fun s => mkState (selectedFiles s) (f (pastedArtifactItems s))
    (pendingPasteContent s) (showArtifactForm s) (contextText s) (inputValue s)
    (showPromptsCommand s) (showVariableDialog s) (pendingPromptGroup s)
    (sttError s) (isRecording s) (prevSessionIdRef s) (prevIsRespondingRef s)).

Definition setPendingPasteContent (v : option str) : M unit :=
  modify (fun s => mkState (selectedFiles s) (pastedArtifactItems s)
    v (showArtifactForm s) (contextText s) (inputValue s)
    (showPromptsCommand s) (showVariableDialog s) (pendingPromptGroup s)
    (sttError s) (isRecording s) (prevSessionIdRef s) (prevIsRespondingRef s)).

Definition setShowArtifactForm (v : bool) : M unit :=
  modify (fun s => mkState (selectedFiles s) (pastedArtifactItems s)
    (pendingPasteContent s) v (contextText s) (inputValue s)
    (showPromptsCommand s) (showVariableDialog s) (pendingPromptGroup s)
    (sttError s) (isRecording s) (prevSessionIdRef s) (prevIsRespondingRef s)).

Definition setContextText (v : option str) : M unit :=
  modify (fun s => mkState (selectedFiles s) (pastedArtifactItems s)
    (pendingPasteContent s) (showArtifactForm s) v (inputValue s)
    (showPromptsCommand s) (showVariableDialog s) (pendingPromptGroup s)
    (sttError s) (isRecording s) (prevSessionIdRef s) (prevIsRespondingRef s)).

Definition setInputValue (v : str) : M unit :=
  modify (fun s => mkState (selectedFiles s) (pastedArtifactItems s)
    (pendingPasteContent s) (showArtifactForm s) (contextText s) v
    (showPromptsCommand s) (showVariableDialog s) (pendingPromptGroup s)
    (sttError s) (isRecording s) (prevSessionIdRef s) (prevIsRespondingRef s)).

Definition setShowPromptsCommand (v : bool) : M unit :=
  modify (fun s => mkState (selectedFiles s) (pastedArtifactItems s)
    (pendingPasteContent s) (showArtifactForm s) (contextText s) (inputValue s)
    v (showVariableDialog s) (pendingPromptGroup s)
    (sttError s) (isRecording s) (prevSessionIdRef s) (prevIsRespondingRef s)).

Definition setShowVariableDialog (v : bool) : M unit :=
  modify (fun s => mkState (selectedFiles s) (pastedArtifactItems s)
    (pendingPasteContent s) (showArtifactForm s) (contextText s) (inputValue s)
    (showPromptsCommand s) v (pendingPromptGroup s)
    (sttError s) (isRecording s) (prevSessionIdRef s) (prevIsRespondingRef s)).

Definition setPendingPromptGroup (v : option PromptGroup) : M unit :=
  modify (fun s => mkState (selectedFiles s) (pastedArtifactItems s)
    (pendingPasteContent s) (showArtifactForm s) (contextText s) (inputValue s)
    (showPromptsCommand s) (showVariableDialog s) v
    (sttError s) (isRecording s) (prevSessionIdRef s) (prevIsRespondingRef s)).

Definition setSttError (v : option str) : M unit :=
  modify (fun s => mkState (selectedFiles s) (pastedArtifactItems s)
    (pendingPasteContent s) (showArtifactForm s) (contextText s) (inputValue s)
    (showPromptsCommand s) (showVariableDialog s) (pendingPromptGroup s)
    v (isRecording s) (prevSessionIdRef s) (prevIsRespondingRef s)).

Definition setIsRecording (v : bool) : M unit :=
  modify (fun s => mkState (selectedFiles s) (pastedArtifactItems s)
    (pendingPasteContent s) (showArtifactForm s) (contextText s) (inputValue s)
    (showPromptsCommand s) (showVariableDialog s) (pendingPromptGroup s)
    (sttError s) v (prevSessionIdRef s) (prevIsRespondingRef s)).

Definition writePrevSessionIdRef (v : option str) : M unit :=
  modify (fun s => mkState (selectedFiles s) (pastedArtifactItems s)
    (pendingPasteContent s) (showArtifactForm s) (contextText s) (inputValue s)
    (showPromptsCommand s) (showVariableDialog s) (pendingPromptGroup s)
    (sttError s) (isRecording s) v (prevIsRespondingRef s)).

Definition writePrevIsRespondingRef (v : bool) : M unit :=
  modify (fun s => mkState (selectedFiles s) (pastedArtifactItems s)
    (pendingPasteContent s) (showArtifactForm s) (contextText s) (inputValue s)
    (showPromptsCommand s) (showVariableDialog s) (pendingPromptGroup s)
    (sttError s) (isRecording s) (prevSessionIdRef s) v).

(** The state of the first render. *)
Definition initial (ctx : Ctx) : State :=
  mkState [] [] None false None [] false false None None false
    (sessionId ctx) (isResponding ctx).

(** ** The handlers *)

(** The clipboard of a paste event: [clipboardData.files] and
    [clipboardData.getData("text")]. *)
Record Clipboard := mkClipboard {
  clip_files : list File;
  clip_text : str
}.

Inductive ChatCommand := CreateTemplate | OtherCommand (command : str).

(** The duplicate test written out in the three file handlers. *)
Definition sameFile (existingFile newFile : File) : bool :=
  Js.eqb (name existingFile) (name newFile)
  && (size existingFile =? size newFile)%Z
  && (lastModified existingFile =? lastModified newFile)%Z.

(** [files.filter(newFile => !selectedFiles.some(existingFile => ...))]. *)
Definition filterNewFiles (selected files : list File) : list File :=
  filter (fun newFile =>
            negb (existsb (fun existingFile => sameFile existingFile newFile)
                    selected))
         files.

(** [`${message}\n\nContext: "${context}"`]. *)
Definition withContext (message context : str) : str :=
  message ++ [Js.newline; Js.newline] ++ Js.lit "Context: "
    ++ [Js.dquote] ++ context ++ [Js.dquote].

Definition joinLines (lines : list str) : str :=
  match lines with
  | [] => []
  | l :: ls => l ++ flat_map (fun x => Js.newline :: x) ls
  end.

Definition createEnhancedMessage (command : ChatCommand)
    (conversationContext : option str) : str :=
  match command with
  | CreateTemplate =>
      match conversationContext with
      | Some ((_ :: _) as context) =>
          joinLines
            [ Js.lit "I want to create a reusable prompt template based on this conversation I just had:";
              [];
              Js.lit "<conversation_history>";
              context;
              Js.lit "</conversation_history>";
              [];
              Js.lit "Please help me create a prompt template by:";
              [];
              Js.lit "1. **Analyzing the Pattern**: Identify the core task/question pattern in this conversation";
              Js.lit "2. **Extracting Variables**: Determine which parts should be variables (use {{variable_name}} syntax)";
              Js.lit "3. **Generalizing**: Make it reusable for similar tasks";
              Js.lit "4. **Suggesting Metadata**: Recommend a name, description, category, and chat shortcut";
              [];
              Js.lit "Focus on capturing what made this conversation successful so it can be reused with different inputs." ]
      | _ => Js.lit "Help me create a new prompt template."
      end
  | OtherCommand _ => []
  end.

Definition when (b : bool) (m : M unit) : M unit := if b then m else skip.

Definition focusLater : M unit := emit (SetTimeout FocusInput 100).

Section Handlers.

(** Two helpers imported from modules outside this component: the
    large-text classifier of the paste module and the placeholder scanner
    of the prompt utilities. *)
Variable isLargeText : str -> bool.
Variable detectVariables : str -> list str.

(** The effect keyed on [sessionId] and [location.state]. *)
Definition sessionEffect (ctx : Ctx) (loc : option LocationState) : M unit :=
  match loc with
  | Some (mkLoc (Some ((_ :: _) as promptText)) groupId groupName) =>
      let variables := detectVariables promptText in
      (if (0 <? List.length variables)%nat then
         setPendingPromptGroup (Some (mkGroup groupId groupName promptText)) ;;
         setShowVariableDialog true
       else
         setInputValue promptText ;;
         focusLater) ;;
      emit NavigateReplaceClearState
  | _ =>
      prev <- readRef prevSessionIdRef ;;
      when (Js.truthy_opt prev && negb (Js.opt_eqb prev (sessionId ctx)))
        (setInputValue [] ;;
         setShowPromptsCommand false ;;
         setPastedArtifactItems (fun _ => [])) ;;
      writePrevSessionIdRef (sessionId ctx) ;;
      setContextText None
  end.

Definition hasRouterPrompt (loc : option LocationState) : bool :=
  match loc with
  | Some (mkLoc (Some (_ :: _)) _ _) => true
  | _ => false
  end.

(** What follows a change of [sessionId]: the effect runs; a run that
    consumes a router prompt calls [navigate] with an emptied state, which
    replaces [location.state], another dependency of the effect, so the
    effect runs once more, now without a prompt. *)
Definition sessionChange (ctx : Ctx) (loc : option LocationState) : M unit :=
  sessionEffect ctx loc ;;
  when (hasRouterPrompt loc)
    (sessionEffect ctx (Some (mkLoc None None None))).

(** The effect keyed on [isResponding]. *)
Definition respondingEffect (ctx : Ctx) : M unit :=
  prev <- readRef prevIsRespondingRef ;;
  when (prev && negb (isResponding ctx)) focusLater ;;
  writePrevIsRespondingRef (isResponding ctx).

(** The listener of the [follow-up-question] event. *)
Definition handleFollowUp (text : str) (prompt : option str)
    (autoSubmit : bool) : M unit :=
  setContextText (Some text) ;;
  match prompt with
  | Some ((_ :: _) as prompt) =>
      setInputValue (prompt ++ [Js.space]) ;;
      if autoSubmit then emit (SetTimeout (AutoSubmit prompt text) 50)
      else focusLater
  | _ => focusLater
  end.

(** What a timer callback does when it fires. *)
Definition runTimer (ctx : Ctx) (t : Timer) (submit : Outcome unit) : M unit :=
  match t with
  | FocusInput => skip
  | AutoSubmit prompt text =>
      let fullMessage := withContext prompt text in
      await (HandleSubmit [] fullMessage) submit ;;
      setContextText None ;;
      setInputValue [] ;;
      when (scrollToBottom ctx) (emit ScrollToBottom)
  end.

Definition handleFileSelect (ctx : Ctx) : M unit :=
  when (negb (isResponding ctx)) (emit ClickFileInput).

Definition handleFileChange (rd : State) (files : option (list File)) : M unit :=
  match files with
  | Some files =>
      let newFiles := filterNewFiles (selectedFiles rd) files in
      when (0 <? List.length newFiles)%nat
        (setSelectedFiles (fun prev => prev ++ newFiles))
  | None => skip
  end ;;
  emit ClearFileInputValue ;;
  focusLater.

Definition handlePaste (ctx : Ctx) (rd : State)
    (clipboardData : option Clipboard) : M unit :=
  if isResponding ctx then skip else
  match clipboardData with
  | None => skip
  | Some clipboardData =>
      if (0 <? List.length (clip_files clipboardData))%nat then
        emit PreventDefault ;;
        let newFiles :=
          filterNewFiles (selectedFiles rd) (clip_files clipboardData) in
        when (0 <? List.length newFiles)%nat
          (setSelectedFiles (fun prev => prev ++ newFiles))
      else
        emit GetClipboardText ;;
        let pastedText := clip_text clipboardData in
        when (Js.truthy pastedText && isLargeText pastedText)
          (emit PreventDefault ;;
           setPendingPasteContent (Some pastedText) ;;
           setShowArtifactForm true)
  end.

(** [now1], [now2] are the two readings of [Date.now()] and [random36] is
    [Math.random().toString(36)]. *)
Definition handleSaveAsArtifact (ctx : Ctx) (rd : State)
    (title fileType : str) (description : option str)
    (upload : Outcome UploadResult) (refetch : Outcome unit)
    (now1 now2 : N) (random36 : str) : M unit :=
  match pendingPasteContent rd with
  | Some ((_ :: _) as content) =>
      try_catch_finally
        (let mimeType :=
           if negb (Js.eqb fileType (Js.lit "auto")) then fileType
           else Js.lit "text/plain" in
         (* [new File([new Blob([content], { type })], title, { type })] *)
         let type := Js.blobType mimeType in
         result <- await (UploadArtifactFile title type content
                            (sessionId ctx) description) upload ;;
         match result with
         | UploadError error =>
             emit (AddNotification
                     (Js.lit "Failed to create artifact: " ++ error) ErrorKind)
         | UploadOk uri newSessionId =>
             when (Js.truthy_opt newSessionId
                   && negb (Js.opt_eqb newSessionId (sessionId ctx)))
               (emit (SetSessionId newSessionId)) ;;
             let artifactItem :=
               mkItem (Js.lit "paste-artifact-" ++ Js.of_N now1 ++ Js.lit "-"
                         ++ Js.substring random36 2 9)
                      uri title now2 in
             setPastedArtifactItems (fun prev => prev ++ [artifactItem]) ;;
             emit (AddNotification
                     (Js.lit "Artifact " ++ [Js.dquote] ++ title ++ [Js.dquote]
                        ++ Js.lit " created from pasted content.") PlainKind) ;;
             await ArtifactsRefetch refetch
         | UploadNull =>
             emit (AddNotification
                     (Js.lit "Failed to create artifact from pasted content.")
                     ErrorKind)
         end)
        (fun error =>
           emit ConsoleError ;;
           emit (AddNotification
                   (Js.lit "Error creating artifact: "
                      ++ match error with
                         | ErrorObject message => message
                         | OtherValue => Js.lit "Unknown error"
                         end) ErrorKind))
        (setPendingPasteContent None ;;
         setShowArtifactForm false)
  | _ => skip
  end.

Definition handleCancelArtifactForm : M unit :=
  setPendingPasteContent None ;;
  setShowArtifactForm false.

Definition handleRemoveFile (index : nat) : M unit :=
  setSelectedFiles (fun prev =>
    List.map snd
      (filter (fun p => negb (Nat.eqb (fst p) index))
         (combine (seq 0 (List.length prev)) prev))).

(** The memoised guard; the JavaScript value is used only for its truth. *)
Definition isSubmittingEnabled (ctx : Ctx) (rd : State) : bool :=
  negb (isResponding ctx)
  && (Js.truthy (Js.trim (inputValue rd))
      || negb (Nat.eqb (List.length (selectedFiles rd)) 0)).

Definition onSubmit (ctx : Ctx) (rd : State) (submit : Outcome unit) : M unit :=
  emit PreventDefault ;;
  when (isSubmittingEnabled ctx rd)
    (let fullMessage := Js.trim (inputValue rd) in
     let fullMessage :=
       match contextText rd with
       | Some ((_ :: _) as contextText) => withContext fullMessage contextText
       | _ => fullMessage
       end in
     await (HandleSubmit (selectedFiles rd) fullMessage) submit ;;
     setSelectedFiles (fun _ => []) ;;
     setPastedArtifactItems (fun _ => []) ;;
     setInputValue [] ;;
     setContextText None ;;
     when (scrollToBottom ctx) (emit ScrollToBottom)).

Definition handleFilesDropped (ctx : Ctx) (rd : State) (files : list File)
    : M unit :=
  if isResponding ctx then skip else
  let newFiles := filterNewFiles (selectedFiles rd) files in
  when (0 <? List.length newFiles)%nat
    (setSelectedFiles (fun prev => prev ++ newFiles)).

Definition opt_is (o : option N) (c : N) : bool :=
  match o with Some x => N.eqb x c | None => false end.

Definition handleInputChange (rd : State) (value : str) (cursorPosition : Z)
    : M unit :=
  setInputValue value ;;
  let textBeforeCursor := Js.substring value 0 cursorPosition in
  let lastChar := Js.at_ textBeforeCursor (Js.len textBeforeCursor - 1) in
  let charBeforeLast := Js.at_ textBeforeCursor (Js.len textBeforeCursor - 2) in
  if opt_is lastChar Js.slash
     && (match charBeforeLast with None => true | Some _ => false end
         || opt_is charBeforeLast Js.space
         || opt_is charBeforeLast Js.newline)
  then setShowPromptsCommand true
  else when (showPromptsCommand rd
             && negb (Js.includes textBeforeCursor Js.slash))
         (setShowPromptsCommand false).

Definition handlePromptSelect (ctx : Ctx) (rd : State) (promptText : str)
    : M unit :=
  let cursorPosition :=
    match selectionStart ctx with Some n => n | None => 0%Z end in
  let textBeforeCursor := Js.substring (inputValue rd) 0 cursorPosition in
  let textAfterCursor := Js.substring_from (inputValue rd) cursorPosition in
  let lastSlashIndex := Js.lastIndexOf textBeforeCursor Js.slash in
  let newText :=
    Js.substring textBeforeCursor 0 lastSlashIndex ++ promptText
      ++ textAfterCursor in
  setInputValue newText ;;
  setShowPromptsCommand false ;;
  focusLater.

Definition handleChatCommand (command : ChatCommand) (context : option str)
    : M unit :=
  let enhancedMessage := createEnhancedMessage command context in
  match command with
  | CreateTemplate =>
      emit (Navigate (Js.lit "/prompts/new?mode=ai-assisted")
              (Some enhancedMessage)) ;;
      setInputValue [] ;;
      setShowPromptsCommand false
  | OtherCommand _ => skip
  end.

Definition handleRemovePastedArtifact (id' : str) : M unit :=
  setPastedArtifactItems (filter (fun item => negb (Js.eqb (id item) id'))).

Definition handleViewPastedArtifact (ctx : Ctx) (filename' : str) : M unit :=
  match find (fun a => Js.eqb a filename') (artifacts ctx) with
  | Some artifact =>
      emit (SetPreviewArtifact artifact) ;;
      emit (OpenSidePanelTab (Js.lit "files"))
  | None => skip
  end.

Definition handleVariableSubmit (processedPrompt : str) : M unit :=
  setInputValue processedPrompt ;;
  setShowVariableDialog false ;;
  setPendingPromptGroup None ;;
  focusLater.

Definition closeVariableDialog : M unit :=
  setShowVariableDialog false ;;
  setPendingPromptGroup None.

Definition handleTranscription (rd : State) (text : str) : M unit :=
  let newText :=
    if Js.truthy (inputValue rd) then inputValue rd ++ [Js.space] ++ text
    else text in
  setInputValue newText ;;
  focusLater.

Definition handleTranscriptionError (error : str) : M unit :=
  setSttError (Some error).

(** A call of an async function whose promise is neither awaited nor
    returned: what it does happens, a rejection stays with the dropped
    promise and the caller goes on normally. *)
Definition detached (m : M unit) : M unit :=
  fun s => match m s with (_, s', t) => (Done tt, s', t) end.

(** [onKeyDown] of the text area. *)
Definition onKeyDown (ctx : Ctx) (rd : State) (key : str) (shiftKey : bool)
    (submit : Outcome unit) : M unit :=
  when (Js.eqb key (Js.lit "Enter") && negb shiftKey
        && isSubmittingEnabled ctx rd)
    (detached (onSubmit ctx rd submit)).

(** ** Events and runs *)

Inductive Event :=
| SessionEffectRuns (loc : option LocationState)
| RespondingEffectRuns
| FollowUpQuestion (text : str) (prompt : option str) (autoSubmit : bool)
| TimerFires (t : Timer) (submit : Outcome unit)
| AttachClicked
| FilesPicked (files : option (list File))
| Pasted (clipboardData : option Clipboard)
| SaveAsArtifact (title fileType : str) (description : option str)
    (upload : Outcome UploadResult) (refetch : Outcome unit)
    (now1 now2 : N) (random36 : str)
| ArtifactFormCancelled
| FileRemoved (index : nat)
| SendClicked (submit : Outcome unit)
| FilesDropped (files : list File)
| InputChanged (value : str) (cursorPosition : Z)
| PromptSelected (promptText : str)
| ReservedCommand (command : ChatCommand) (context : option str)
| PastedArtifactRemoved (id' : str)
| PastedArtifactViewed (filename' : str)
| VariablesSubmitted (processedPrompt : str)
| VariableDialogClosed
| PromptsCommandClosed
| Transcribed (text : str)
| TranscriptionFailed (error : str)
| SttErrorDismissed
| RecordingStateChanged (recording : bool)
| KeyPressed (key : str) (shiftKey : bool) (submit : Outcome unit).

(** The handler an event reaches, created in the render of [rd]. *)
Definition dispatch (ctx : Ctx) (rd : State) (ev : Event) : M unit :=
  match ev with
  | SessionEffectRuns loc => sessionEffect ctx loc
  | RespondingEffectRuns => respondingEffect ctx
  | FollowUpQuestion text prompt autoSubmit =>
      handleFollowUp text prompt autoSubmit
  | TimerFires t submit => runTimer ctx t submit
  | AttachClicked => handleFileSelect ctx
  | FilesPicked files => handleFileChange rd files
  | Pasted clipboardData => handlePaste ctx rd clipboardData
  | SaveAsArtifact title fileType description upload refetch now1 now2 r =>
      handleSaveAsArtifact ctx rd title fileType description upload refetch
        now1 now2 r
  | ArtifactFormCancelled => handleCancelArtifactForm
  | FileRemoved index => handleRemoveFile index
  | SendClicked submit => onSubmit ctx rd submit
  | FilesDropped files => handleFilesDropped ctx rd files
  | InputChanged value cursorPosition =>
      handleInputChange rd value cursorPosition
  | PromptSelected promptText => handlePromptSelect ctx rd promptText
  | ReservedCommand command context => handleChatCommand command context
  | PastedArtifactRemoved id' => handleRemovePastedArtifact id'
  | PastedArtifactViewed filename' => handleViewPastedArtifact ctx filename'
  | VariablesSubmitted processedPrompt => handleVariableSubmit processedPrompt
  | VariableDialogClosed => closeVariableDialog
  | PromptsCommandClosed => setShowPromptsCommand false
  | Transcribed text => handleTranscription rd text
  | TranscriptionFailed error => handleTranscriptionError error
  | SttErrorDismissed => setSttError None
  | RecordingStateChanged recording => setIsRecording recording
  | KeyPressed key shiftKey submit => onKeyDown ctx rd key shiftKey submit
  end.

(** An event handled on the state of the latest render. *)
Definition step (ctx : Ctx) (st : State) (ev : Event) : State :=
  state_of (dispatch ctx st ev st).

(** The states the component can be in: the first render, followed by any
    events, each under whatever the context then provides. *)
Inductive reachable : State -> Prop :=
| reachable_initial ctx : reachable (initial ctx)
| reachable_step ctx st ev :
    reachable st -> reachable (step ctx st ev).

End Handlers.

(** ** Vocabulary of the properties *)

(** The submit guard in words: not responding, and a draft that is not blank
    or at least one selected file. *)
Definition submitGuard (ctx : Ctx) (rd : State) : Prop :=
  isResponding ctx = false
  /\ (Js.trim (inputValue rd) <> [] \/ selectedFiles rd <> []).

(** A call of the Session context's submit operation. *)
Definition isHandleSubmit (e : Effect) : bool :=
  match e with HandleSubmit _ _ => true | _ => false end.

(** The message [onSubmit] composes from the draft and the context string. *)
Definition composedMessage (rd : State) : str :=
  match contextText rd with
  | Some ((_ :: _) as c) => withContext (Js.trim (inputValue rd)) c
  | _ => Js.trim (inputValue rd)
  end.

(** The Selected File Set holds at most one file per key: every file differs
    in key from all the files after it. *)
Fixpoint atMostOneInstance (l : list File) : Prop :=
  match l with
  | [] => True
  | f :: l' => (forall g, In g l' -> sameFile f g = false)
               /\ atMostOneInstance l'
  end.

(** The paste rule without the precedence of clipboard files: ignored while
    responding; otherwise large text is intercepted and other text is left to
    the browser. *)
Definition pasteRuleIgnoringFiles (isLargeText : str -> bool) : Prop :=
  forall ctx st cb,
    let run := handlePaste isLargeText ctx st (Some cb) st in
    (isResponding ctx = true -> state_of run = st /\ trace_of run = [])
    /\ (isResponding ctx = false -> isLargeText (clip_text cb) = true ->
        In PreventDefault (trace_of run)
        /\ pendingPasteContent (state_of run) = Some (clip_text cb)
        /\ showArtifactForm (state_of run) = true
        /\ inputValue (state_of run) = inputValue st)
    /\ (isResponding ctx = false -> isLargeText (clip_text cb) = false ->
        ~ In PreventDefault (trace_of run) /\ state_of run = st).

(** The number of error notifications in a trace. *)
Definition errorNotifications (t : list Effect) : nat :=
  List.length
    (filter (fun e => match e with
                      | AddNotification _ ErrorKind => true
                      | _ => false
                      end) t).

(** A run of [handleSaveAsArtifact] succeeds when the upload resolves to a
    reference and the refresh of the artifact list completes. *)
Definition saveSucceeds (upload : Outcome UploadResult) (refetch : Outcome unit)
    : bool :=
  match upload, refetch with
  | Resolves (UploadOk _ _), Resolves _ => true
  | _, _ => false
  end.

(** The session reset for every previous id that is not null. *)
Definition sessionResetOnAnyDefinedId : Prop :=
  forall detectVariables ctx loc st s1,
    prevSessionIdRef st = Some s1 ->
    sessionId ctx <> Some s1 ->
    let st' := state_of (sessionChange detectVariables ctx loc st) in
    inputValue st' = []
    /\ showPromptsCommand st' = false
    /\ pastedArtifactItems st' = []
    /\ selectedFiles st' = selectedFiles st.

(** The text before the cursor ends in a [/] that starts the text or follows
    a space or a newline. *)
Definition slashTrigger (before : str) : Prop :=
  before = [Js.slash]
  \/ exists pre d, before = pre ++ [d; Js.slash]
                  /\ (d = Js.space \/ d = Js.newline).

(** The test [handleInputChange] makes on the text before the cursor. *)
Definition slashTriggerb (textBeforeCursor : str) : bool :=
  let lastChar := Js.at_ textBeforeCursor (Js.len textBeforeCursor - 1) in
  let charBeforeLast := Js.at_ textBeforeCursor (Js.len textBeforeCursor - 2) in
  opt_is lastChar Js.slash
  && (match charBeforeLast with None => true | Some _ => false end
      || opt_is charBeforeLast Js.space
      || opt_is charBeforeLast Js.newline).

(** ** Vocabulary of the further properties *)

(** The files an event brings to the Selected File Set. *)
Definition batchOf (ev : Event) : list File :=
  match ev with
  | FilesPicked (Some files) => files
  | FilesDropped files => files
  | Pasted (Some clipboardData) => clip_files clipboardData
  | _ => []
  end.

(** A run of events, each handled on the latest state under the context of
    its own render. *)
Fixpoint runEvents (isLargeText : str -> bool)
    (detectVariables : str -> list str) (evs : list (Ctx * Event))
    (st : State) : State :=
  match evs with
  | [] => st
  | (ctx, ev) :: evs' =>
      runEvents isLargeText detectVariables evs'
        (step isLargeText detectVariables ctx st ev)
  end.

(** The events on which [handleSubmit] is called: a click on Send or an
    unshifted Enter while the submit guard holds, and the auto-submit
    callback of a follow-up question. *)
Definition submitsOn (ctx : Ctx) (st : State) (ev : Event) : Prop :=
  match ev with
  | SendClicked _ => submitGuard ctx st
  | KeyPressed key shiftKey _ =>
      key = Js.lit "Enter" /\ shiftKey = false /\ submitGuard ctx st
  | TimerFires (AutoSubmit _ _) _ => True
  | _ => False
  end.

(** The MIME type [handleSaveAsArtifact] uploads with. *)
Definition chosenMimeType (fileType : str) : str :=
  if Js.eqb fileType (Js.lit "auto") then Js.lit "text/plain" else fileType.

(** Words joined by single spaces. *)
Definition joinWords (words : list str) : str :=
  match words with
  | [] => []
  | w :: ws => w ++ flat_map (fun x => Js.space :: x) ws
  end.

(** The draft holds a code unit that [trim] does not strip. *)
Definition hasVisibleText (s : str) : bool :=
  existsb (fun c => negb (Js.isWhiteSpace c)) s.

(** ** Handlers of the pages around the chat view

    The prompts page and the projects page keep their own state and make
    their own outward calls, so their handlers run in the same kind of
    monad over a state type [S] and a call type [E]. *)

Definition Run (S E A : Type) := S -> Res A * S * list E.

Definition resultOf {S E A} (x : Res A * S * list E) : Res A := fst (fst x).
Definition stateOf {S E A} (x : Res A * S * list E) : S := snd (fst x).
Definition callsOf {S E A} (x : Res A * S * list E) : list E := snd x.

Definition unitR {S E A} (a : A) : Run S E A := fun s => (Done a, s, []).

Definition bindR {S E A B} (m : Run S E A) (k : A -> Run S E B) : Run S E B :=
  fun s =>
    match m s with
    | (Done a, s1, t1) =>
        match k a s1 with (r, s2, t2) => (r, s2, t1 ++ t2) end
    | (Raised e, s1, t1) => (Raised e, s1, t1)
    end.

Declare Scope page_scope.
Delimit Scope page_scope with page.
Notation "x <- m ;; k" := (bindR m (fun x => k))
  (at level 61, m at next level, right associativity) : page_scope.
Notation "m ;; k" := (bindR m (fun _ => k))
  (at level 61, right associativity) : page_scope.

Definition skipR {S E} : Run S E unit := unitR tt.

Definition emitR {S E} (e : E) : Run S E unit := fun s => (Done tt, s, [e]).

Definition modifyR {S E} (f : S -> S) : Run S E unit :=
  fun s => (Done tt, f s, []).

Definition whenR {S E} (b : bool) (m : Run S E unit) : Run S E unit :=
  if b then m else skipR.

(** [await] on a call whose outcome is [o]. *)
Definition awaitR {S E A} (call : E) (o : Outcome A) : Run S E A :=
  fun s =>
    match o with
    | Resolves a => (Done a, s, [call])
    | Rejects e => (Raised e, s, [call])
    end.

(** [try { body } catch (e) { handler e }]. *)
Definition try_catchR {S E} (body : Run S E unit)
    (handler : Thrown -> Run S E unit) : Run S E unit :=
  fun s =>
    match body s with
    | (Done a, s1, t1) => (Done a, s1, t1)
    | (Raised e, s1, t1) =>
        match handler e s1 with (r, s2, t2) => (r, s2, t1 ++ t2) end
    end.

(** [try { body } finally { fin }]: the exception of the body, if any,
    goes on after [fin]. *)
Definition try_finallyR {S E} (body fin : Run S E unit) : Run S E unit :=
  fun s =>
    match body s with
    | (r1, s1, t1) =>
        match fin s1 with
        | (Done _, s2, t2) => (r1, s2, t1 ++ t2)
        | (Raised e, s2, t2) => (Raised e, s2, t1 ++ t2)
        end
    end.

(** [try { body } catch (e) { handler e } finally { fin }]. *)
Definition try_catch_finallyR {S E} (body : Run S E unit)
    (handler : Thrown -> Run S E unit) (fin : Run S E unit) : Run S E unit :=
  try_finallyR (try_catchR body handler) fin.

(** A [fetch] response: its [ok] flag and how reading its JSON body ends. *)
Record Response (A : Type) := mkResponse {
  ok : bool;
  json : Outcome A
}.
Arguments mkResponse {A} ok json.
Arguments ok {A} r.
Arguments json {A} r.

Module PromptsPage.

Local Open Scope page_scope.

(** The fields of a [PromptGroup] this page reads or writes; [others]
    stands for the rest of the object. *)
Record PromptGroup := mkGroup {
  id : str;
  name : str;
  prompt_text : option str;          (* [production_prompt?.prompt_text] *)
  is_pinned : bool;
  others : nat
}.

Inductive BuilderMode := Manual | AiAssisted.

Record LoaderData := mkLoader {
  promptId : option str;
  view : option str;
  mode : option str
}.

Record State := mkState {
  promptGroups : list PromptGroup;
  isLoading : bool;
  showBuilder : bool;
  showGenerateDialog : bool;
  initialMessage : option str;
  editingGroup : option PromptGroup;
  builderInitialMode : BuilderMode;
  versionHistoryGroup : option PromptGroup;
  deletingPrompt : option (str * str);        (* [{ id, name }] *)
  newlyCreatedPromptId : option str;
  showVariableDialog : bool;
  pendingPromptGroup : option PromptGroup
}.

Definition initial : State :=
  mkState [] false false false None None AiAssisted None None None false None.

Inductive Method := GET | DELETE | PATCH.

(** The [state] option of [navigate]. *)
Inductive NavigationState :=
| NoState
| ChatPrompt (state : LocationState)
| TaskDescription (taskDescription : str).

Inductive NotificationType := SuccessType | ErrorType.

Inductive Effect :=
| Fetch (url : str) (method : Method)
| ReadJson
| Navigate (to : str) (state : NavigationState)
| AddNotification (message : str) (type : NotificationType)
| ConsoleError (message : str).

Definition P (A : Type) := Run State Effect A.

Definition setPromptGroups (f : list PromptGroup -> list PromptGroup)
    : P unit :=
  modifyR (fun s => mkState (f (promptGroups s)) (isLoading s) (showBuilder s)
    (showGenerateDialog s) (initialMessage s) (editingGroup s)
    (builderInitialMode s) (versionHistoryGroup s) (deletingPrompt s)
    (newlyCreatedPromptId s) (showVariableDialog s) (pendingPromptGroup s)).

Definition setIsLoading (v : bool) : P unit :=
  modifyR (fun s => mkState (promptGroups s) v (showBuilder s)
    (showGenerateDialog s) (initialMessage s) (editingGroup s)
    (builderInitialMode s) (versionHistoryGroup s) (deletingPrompt s)
    (newlyCreatedPromptId s) (showVariableDialog s) (pendingPromptGroup s)).

Definition setShowBuilder (v : bool) : P unit :=
  modifyR (fun s => mkState (promptGroups s) (isLoading s) v
    (showGenerateDialog s) (initialMessage s) (editingGroup s)
    (builderInitialMode s) (versionHistoryGroup s) (deletingPrompt s)
    (newlyCreatedPromptId s) (showVariableDialog s) (pendingPromptGroup s)).

Definition setShowGenerateDialog (v : bool) : P unit :=
  modifyR (fun s => mkState (promptGroups s) (isLoading s) (showBuilder s)
    v (initialMessage s) (editingGroup s)
    (builderInitialMode s) (versionHistoryGroup s) (deletingPrompt s)
    (newlyCreatedPromptId s) (showVariableDialog s) (pendingPromptGroup s)).

Definition setInitialMessage (v : option str) : P unit :=
  modifyR (fun s => mkState (promptGroups s) (isLoading s) (showBuilder s)
    (showGenerateDialog s) v (editingGroup s)
    (builderInitialMode s) (versionHistoryGroup s) (deletingPrompt s)
    (newlyCreatedPromptId s) (showVariableDialog s) (pendingPromptGroup s)).

Definition setEditingGroup (v : option PromptGroup) : P unit :=
  modifyR (fun s => mkState (promptGroups s) (isLoading s) (showBuilder s)
    (showGenerateDialog s) (initialMessage s) v
    (builderInitialMode s) (versionHistoryGroup s) (deletingPrompt s)
    (newlyCreatedPromptId s) (showVariableDialog s) (pendingPromptGroup s)).

Definition setBuilderInitialMode (v : BuilderMode) : P unit :=
  modifyR (fun s => mkState (promptGroups s) (isLoading s) (showBuilder s)
    (showGenerateDialog s) (initialMessage s) (editingGroup s)
    v (versionHistoryGroup s) (deletingPrompt s)
    (newlyCreatedPromptId s) (showVariableDialog s) (pendingPromptGroup s)).

Definition setVersionHistoryGroup (v : option PromptGroup) : P unit :=
  modifyR (fun s => mkState (promptGroups s) (isLoading s) (showBuilder s)
    (showGenerateDialog s) (initialMessage s) (editingGroup s)
    (builderInitialMode s) v (deletingPrompt s)
    (newlyCreatedPromptId s) (showVariableDialog s) (pendingPromptGroup s)).

Definition setDeletingPrompt (v : option (str * str)) : P unit :=
  modifyR (fun s => mkState (promptGroups s) (isLoading s) (showBuilder s)
    (showGenerateDialog s) (initialMessage s) (editingGroup s)
    (builderInitialMode s) (versionHistoryGroup s) v
    (newlyCreatedPromptId s) (showVariableDialog s) (pendingPromptGroup s)).

Definition setNewlyCreatedPromptId (v : option str) : P unit :=
  modifyR (fun s => mkState (promptGroups s) (isLoading s) (showBuilder s)
    (showGenerateDialog s) (initialMessage s) (editingGroup s)
    (builderInitialMode s) (versionHistoryGroup s) (deletingPrompt s)
    v (showVariableDialog s) (pendingPromptGroup s)).

Definition setShowVariableDialog (v : bool) : P unit :=
  modifyR (fun s => mkState (promptGroups s) (isLoading s) (showBuilder s)
    (showGenerateDialog s) (initialMessage s) (editingGroup s)
    (builderInitialMode s) (versionHistoryGroup s) (deletingPrompt s)
    (newlyCreatedPromptId s) v (pendingPromptGroup s)).

Definition setPendingPromptGroup (v : option PromptGroup) : P unit :=
  modifyR (fun s => mkState (promptGroups s) (isLoading s) (showBuilder s)
    (showGenerateDialog s) (initialMessage s) (editingGroup s)
    (builderInitialMode s) (versionHistoryGroup s) (deletingPrompt s)
    (newlyCreatedPromptId s) (showVariableDialog s) v).

Definition groupUrl (promptId : str) : str :=
  Js.lit "/api/v1/prompts/groups/" ++ promptId.

Definition fetchPromptGroups (fetch : Outcome (Response (list PromptGroup)))
    : P unit :=
  setIsLoading true ;;
  try_catch_finallyR
    (response <- awaitR (Fetch (Js.lit "/api/v1/prompts/groups/all") GET)
                   fetch ;;
     if ok response then
       data <- awaitR ReadJson (json response) ;;
       setPromptGroups (fun _ => data)
     else skipR)
    (fun error => emitR (ConsoleError (Js.lit "Failed to fetch prompt groups:")))
    (setIsLoading false).

(** [o === "..."] for a string literal. *)
Definition isLit (o : option str) (s : string) : bool :=
  match o with Some x => Js.eqb x (Js.lit s) | None => false end.

(** The effect keyed on [loaderData] and [location.state?.taskDescription];
    the two loaders it starts are not awaited and catch their own errors. *)
Definition routeEffect (loaderData : option LoaderData)
    (taskDescription : option str) (load : Outcome (Response PromptGroup))
    : P unit :=
  match loaderData with
  | Some loaderData =>
      if isLit (view loaderData) "builder" then
        match promptId loaderData with
        | Some ((_ :: _) as promptId) =>
            if isLit (mode loaderData) "edit" then
              try_catchR
                (response <- awaitR (Fetch (groupUrl promptId) GET) load ;;
                 if ok response then
                   group <- awaitR ReadJson (json response) ;;
                   setEditingGroup (Some group) ;;
                   setBuilderInitialMode Manual ;;
                   setShowBuilder true
                 else skipR)
                (fun error =>
                   emitR (ConsoleError
                            (Js.lit "Failed to load prompt for editing:")))
            else
              setEditingGroup None ;;
              let mode := if isLit (mode loaderData) "ai-assisted"
                          then AiAssisted else Manual in
              setBuilderInitialMode mode ;;
              whenR (match mode with AiAssisted => true | Manual => false end
                     && Js.truthy_opt taskDescription)
                (setInitialMessage taskDescription) ;;
              setShowBuilder true
        | _ =>
            setEditingGroup None ;;
            let mode := if isLit (mode loaderData) "ai-assisted"
                        then AiAssisted else Manual in
            setBuilderInitialMode mode ;;
            whenR (match mode with AiAssisted => true | Manual => false end
                   && Js.truthy_opt taskDescription)
              (setInitialMessage taskDescription) ;;
            setShowBuilder true
        end
      else
        match promptId loaderData with
        | Some ((_ :: _) as promptId) =>
            if isLit (view loaderData) "versions" then
              try_catchR
                (response <- awaitR (Fetch (groupUrl promptId) GET) load ;;
                 if ok response then
                   group <- awaitR ReadJson (json response) ;;
                   setVersionHistoryGroup (Some group)
                 else skipR)
                (fun error =>
                   emitR (ConsoleError (Js.lit "Failed to load prompt group:")))
            else
              setShowBuilder false ;;
              setVersionHistoryGroup None ;;
              setEditingGroup None
        | _ =>
            setShowBuilder false ;;
            setVersionHistoryGroup None ;;
            setEditingGroup None
        end
  | None =>
      setShowBuilder false ;;
      setVersionHistoryGroup None ;;
      setEditingGroup None
  end.

Definition handleDeleteClick (id name : str) : P unit :=
  setDeletingPrompt (Some (id, name)).

Definition handleDeleteConfirm (rd : State) (delete : Outcome (Response unit))
    (refetch : Outcome (Response (list PromptGroup))) : P unit :=
  match deletingPrompt rd with
  | None => skipR
  | Some (deletingId, _) =>
      try_catchR
        (response <- awaitR (Fetch (groupUrl deletingId) DELETE) delete ;;
         if ok response then
           whenR (match versionHistoryGroup rd with
                  | Some group => Js.eqb (id group) deletingId
                  | None => false
                  end)
             (setVersionHistoryGroup None) ;;
           fetchPromptGroups refetch ;;
           setDeletingPrompt None ;;
           emitR (AddNotification (Js.lit "Prompt deleted successfully")
                    SuccessType)
         else
           setDeletingPrompt None ;;
           emitR (AddNotification (Js.lit "Failed to delete prompt") ErrorType))
        (fun error =>
           emitR (ConsoleError (Js.lit "Failed to delete prompt:")) ;;
           setDeletingPrompt None ;;
           emitR (AddNotification (Js.lit "Failed to delete prompt") ErrorType))
  end.

Definition handleEdit (group : PromptGroup) : P unit :=
  emitR (Navigate (Js.lit "/prompts/" ++ id group ++ Js.lit "/edit") NoState).

Definition handleGeneratePrompt (taskDescription : str) : P unit :=
  setShowGenerateDialog false ;;
  emitR (Navigate (Js.lit "/prompts/new?mode=ai-assisted")
           (TaskDescription taskDescription)).

Section UseInChat.

Variable detectVariables : str -> list str.

Definition handleUseInChat (prompt : PromptGroup) : P unit :=
  let promptText :=
    match prompt_text prompt with
    | Some ((_ :: _) as text) => text
    | _ => []
    end in
  let variables := detectVariables promptText in
  let hasVariables := (0 <? List.length variables)%nat in
  if hasVariables then
    setPendingPromptGroup (Some prompt) ;;
    setShowVariableDialog true
  else
    emitR (Navigate (Js.lit "/chat")
             (ChatPrompt (mkLoc (Some promptText) (Some (id prompt))
                            (Some (name prompt))))).

End UseInChat.

Definition handleVariableSubmit (rd : State) (processedPrompt : str) : P unit :=
  match pendingPromptGroup rd with
  | None => skipR
  | Some pendingPromptGroup =>
      emitR (Navigate (Js.lit "/chat")
               (ChatPrompt (mkLoc (Some processedPrompt)
                              (Some (id pendingPromptGroup))
                              (Some (name pendingPromptGroup))))) ;;
      setShowVariableDialog false ;;
      setPendingPromptGroup None
  end.

(** [{ ...p, is_pinned: v }]. *)
Definition withPinned (p : PromptGroup) (v : bool) : PromptGroup :=
  mkGroup (id p) (name p) (prompt_text p) v (others p).

Definition pinAll (id' : str) (v : bool) (prev : list PromptGroup)
    : list PromptGroup :=
  List.map (fun p => if Js.eqb (id p) id' then withPinned p v else p) prev.

Definition handleTogglePin (id' : str) (currentStatus : bool)
    (patch : Outcome (Response unit)) : P unit :=
  try_catchR
    (setPromptGroups (pinAll id' (negb currentStatus)) ;;
     response <- awaitR (Fetch (groupUrl id' ++ Js.lit "/pin") PATCH) patch ;;
     if negb (ok response) then
       setPromptGroups (pinAll id' currentStatus) ;;
       emitR (AddNotification (Js.lit "Failed to update pin status") ErrorType)
     else
       emitR (AddNotification
                (if currentStatus then Js.lit "Template unpinned"
                 else Js.lit "Template pinned") SuccessType))
    (fun error =>
       setPromptGroups (pinAll id' currentStatus) ;;
       emitR (ConsoleError (Js.lit "Failed to toggle pin:")) ;;
       emitR (AddNotification (Js.lit "Failed to update pin status") ErrorType)).

(** [onSuccess] of the template builder. *)
Definition onBuilderSuccess (createdPromptId : option str)
    (refetch : Outcome (Response (list PromptGroup))) : P unit :=
  whenR (Js.truthy_opt createdPromptId)
    (setNewlyCreatedPromptId createdPromptId) ;;
  fetchPromptGroups refetch ;;
  emitR (Navigate (Js.lit "/prompts") NoState).

End PromptsPage.

Module ProjectsPage.

Local Open Scope page_scope.

(** A [Project]: its id, and [others] for the rest of the object. *)
Record Project := mkProject {
  id : str;
  others : nat
}.

Record State := mkState {
  showCreateDialog : bool;
  isCreating : bool;
  isDeleteDialogOpen : bool;
  projectToDelete : option Project;
  isDeleting : bool
}.

Definition initial : State := mkState false false false None false.

(** What a render reads from [useProjectContext] and [useLoaderData]. *)
Record Ctx := mkCtx {
  projects : list Project;
  projectId : option str             (* [loaderData?.projectId] *)
}.

Inductive Effect :=
| CreateProject (formData : list (str * str))
| Refetch
| DeleteProject (id : str)
| SetActiveProject (project : Project)
| HandleSwitchSession (sessionId : str)
| HandleNewSession (preserveProject : bool)
| Navigate (to : str)
| ConsoleError (message : str).

Definition P (A : Type) := Run State Effect A.

Definition setShowCreateDialog (v : bool) : P unit :=
  modifyR (fun s => mkState v (isCreating s) (isDeleteDialogOpen s)
                      (projectToDelete s) (isDeleting s)).

Definition setIsCreating (v : bool) : P unit :=
  modifyR (fun s => mkState (showCreateDialog s) v (isDeleteDialogOpen s)
                      (projectToDelete s) (isDeleting s)).

Definition setIsDeleteDialogOpen (v : bool) : P unit :=
  modifyR (fun s => mkState (showCreateDialog s) (isCreating s) v
                      (projectToDelete s) (isDeleting s)).

Definition setProjectToDelete (v : option Project) : P unit :=
  modifyR (fun s => mkState (showCreateDialog s) (isCreating s)
                      (isDeleteDialogOpen s) v (isDeleting s)).

Definition setIsDeleting (v : bool) : P unit :=
  modifyR (fun s => mkState (showCreateDialog s) (isCreating s)
                      (isDeleteDialogOpen s) (projectToDelete s) v).

(** [projects.find(p => p.id === loaderData?.projectId) || null]. *)
Definition selectedProject (ctx : Ctx) : option Project :=
  match projectId ctx with
  | Some wanted => find (fun p => Js.eqb (id p) wanted) (projects ctx)
  | None => None
  end.

Definition projectUrl (project : Project) : str :=
  Js.lit "/projects/" ++ id project.

Definition handleCreateProject (name description : str)
    (create : Outcome Project) (refetch : Outcome unit) : P unit :=
  setIsCreating true ;;
  try_finallyR
    (let formData :=
       (Js.lit "name", name)
       :: (if Js.truthy description
           then [(Js.lit "description", description)] else []) in
     newProject <- awaitR (CreateProject formData) create ;;
     setShowCreateDialog false ;;
     awaitR Refetch refetch ;;
     emitR (Navigate (projectUrl newProject)))
    (setIsCreating false).

Definition handleProjectSelect (project : Project) : P unit :=
  emitR (Navigate (projectUrl project)).

Definition handleBackToList : P unit :=
  emitR (Navigate (Js.lit "/projects")).

Definition handleChatClick (ctx : Ctx) (sessionId : str)
    (switch : Outcome unit) : P unit :=
  match selectedProject ctx with
  | Some project => emitR (SetActiveProject project)
  | None => skipR
  end ;;
  awaitR (HandleSwitchSession sessionId) switch ;;
  emitR (Navigate (Js.lit "chat")).

Definition handleCreateNew : P unit := setShowCreateDialog true.

Definition handleDeleteClick (project : Project) : P unit :=
  setProjectToDelete (Some project) ;;
  setIsDeleteDialogOpen true.

Definition handleDeleteConfirm (rd : State) (delete : Outcome unit) : P unit :=
  match projectToDelete rd with
  | None => skipR
  | Some project =>
      setIsDeleting true ;;
      try_catch_finallyR
        (awaitR (DeleteProject (id project)) delete ;;
         setIsDeleteDialogOpen false ;;
         setProjectToDelete None)
        (fun error => emitR (ConsoleError (Js.lit "Failed to delete project:")))
        (setIsDeleting false)
  end.

Definition handleStartNewChat (ctx : Ctx) (newSession : Outcome unit) : P unit :=
  match selectedProject ctx with
  | Some project =>
      emitR (SetActiveProject project) ;;
      awaitR (HandleNewSession true) newSession ;;
      emitR (Navigate (Js.lit "chat"))
  | None => skipR
  end.

(** [onClose] of the delete dialog. *)
Definition closeDeleteDialog : P unit :=
  setIsDeleteDialogOpen false ;;
  setProjectToDelete None.

End ProjectsPage.

(** The notifications among the calls of a prompts-page handler. *)
Definition promptNotifications (calls : list PromptsPage.Effect)
    : list PromptsPage.Effect :=
  filter (fun e => match e with
                   | PromptsPage.AddNotification _ _ => true
                   | _ => false
                   end) calls.

(** Did a request end well: it resolved and the response is [ok]. *)
Definition succeeded {A : Type} (o : Outcome (Response A)) : bool :=
  match o with
  | Resolves response => ok response
  | Rejects _ => false
  end.

(** Two files have one (name, size, last-modified) key. *)
Definition sameKey (e f : File) : Prop :=
  name e = name f /\ size e = size f /\ lastModified e = lastModified f.

(** [l] is [l'] with some elements left out, the others in their order. *)
Inductive subsequence {A : Type} : list A -> list A -> Prop :=
| subsequence_nil : subsequence [] []
| subsequence_skip x l l' : subsequence l l' -> subsequence l (x :: l')
| subsequence_keep x l l' : subsequence l l' -> subsequence (x :: l) (x :: l').

(** The prompt insertion for every draft and every cursor position in it:
    the text before the cursor always splits at a last [/], and the new
    draft is the part before it, the prompt and the text after the cursor. *)
Definition promptReplacesTokenEverywhere : Prop :=
  forall ctx rd st promptText n,
    selectionStart ctx = Some (Z.of_nat n) ->
    (n <= List.length (inputValue rd))%nat ->
    exists pre tok,
      firstn n (inputValue rd) = pre ++ Js.slash :: tok
      /\ ~ In Js.slash tok
      /\ inputValue (state_of (handlePromptSelect ctx rd promptText st))
         = pre ++ promptText ++ skipn n (inputValue rd)
      /\ showPromptsCommand (state_of (handlePromptSelect ctx rd promptText st))
         = false.

(** Case analysis on every branch of an unfolded handler. *)
Ltac run_handler :=
  repeat (cbn -[Js.lit Js.of_N Js.substring Js.trim];
          match goal with
          | |- context [if ?b then _ else _] => destruct b
          | |- context [match ?x with _ => _ end] => destruct x
          end);
  cbn -[Js.lit Js.of_N Js.substring Js.trim].

(** ** The submit guard and clear-on-send *)

Lemma truthy_true (s : str) : Js.truthy s = true <-> s <> [].
Proof. destruct s; simpl; split; congruence. Qed.

Lemma isSubmittingEnabled_guard ctx rd :
  isSubmittingEnabled ctx rd = true <-> submitGuard ctx rd.
Proof.
  unfold isSubmittingEnabled, submitGuard.
  rewrite andb_true_iff, orb_true_iff, negb_true_iff, negb_true_iff,
    truthy_true.
  destruct (selectedFiles rd); simpl; intuition congruence.
Qed.

Lemma onSubmit_disabled ctx rd submit st :
  isSubmittingEnabled ctx rd = false ->
  onSubmit ctx rd submit st = (Done tt, st, [PreventDefault]).
Proof. intros H. unfold onSubmit, bind, when. rewrite H. reflexivity. Qed.

Lemma onSubmit_enabled ctx rd submit st :
  isSubmittingEnabled ctx rd = true ->
  onSubmit ctx rd submit st =
    match submit with
    | Resolves _ =>
        (Done tt,
         mkState [] [] (pendingPasteContent st) (showArtifactForm st) None []
           (showPromptsCommand st) (showVariableDialog st)
           (pendingPromptGroup st) (sttError st) (isRecording st)
           (prevSessionIdRef st) (prevIsRespondingRef st),
         [PreventDefault; HandleSubmit (selectedFiles rd) (composedMessage rd)]
           ++ (if scrollToBottom ctx then [ScrollToBottom] else []))
    | Rejects e =>
        (Raised e, st,
         [PreventDefault; HandleSubmit (selectedFiles rd) (composedMessage rd)])
    end.
Proof.
  intros H. unfold onSubmit, bind, when, composedMessage. rewrite H.
  destruct submit as [[]|e]; simpl.
  - destruct (contextText rd) as [[|c cs]|], (scrollToBottom ctx); reflexivity.
  - destruct (contextText rd) as [[|c cs]|]; reflexivity.
Qed.

(** C1. [onSubmit] calls the Session context's submit operation exactly when
    the controller is not responding and the trimmed draft is non-empty or a
    file is selected; when that guard is false it makes no outward call
    beyond [preventDefault] on its own event and leaves the state as it is. *)
Theorem onSubmit_calls_backend_iff_guard ctx rd submit st :
  (existsb isHandleSubmit (trace_of (onSubmit ctx rd submit st)) = true
   <-> submitGuard ctx rd)
  /\ (submitGuard ctx rd ->
      filter isHandleSubmit (trace_of (onSubmit ctx rd submit st))
      = [HandleSubmit (selectedFiles rd) (composedMessage rd)])
  /\ (~ submitGuard ctx rd ->
      state_of (onSubmit ctx rd submit st) = st
      /\ trace_of (onSubmit ctx rd submit st) = [PreventDefault]).
Proof.
  rewrite <- isSubmittingEnabled_guard.
  destruct (isSubmittingEnabled ctx rd) eqn:E.
  - rewrite (onSubmit_enabled _ _ _ _ E).
    repeat split; try congruence; intros _;
      destruct submit as [[]|e], (scrollToBottom ctx); reflexivity.
  - rewrite (onSubmit_disabled _ _ _ _ E). simpl.
    repeat split; congruence.
Qed.

Lemma onSubmit_calls_backend_iff_guard_witness :
  let ctx := mkCtx true (Some (Js.lit "s1")) [] true None in
  let st := mkState [mkFile (Js.lit "a.txt") 3 7 0] [] None false None
              (Js.lit "hello") true false None None false None false in
  ~ submitGuard ctx st
  /\ state_of (onSubmit ctx st (Resolves tt) st) = st
  /\ trace_of (onSubmit ctx st (Resolves tt) st) = [PreventDefault].
Proof.
  intros ctx st.
  assert (H : ~ submitGuard ctx st) by (intros [H _]; discriminate H).
  split; [exact H|].
  exact (proj2 (proj2 (onSubmit_calls_backend_iff_guard ctx st (Resolves tt) st)) H).
Defined.

(** C2. After a submit that passes the guard and whose call into the Session
    context completes, the draft is empty, no file is selected, no
    pasted-artifact badge is left and the context string is null, whatever
    they were before. *)
Theorem onSubmit_success_clears_input ctx rd st :
  submitGuard ctx rd ->
  let st' := state_of (onSubmit ctx rd (Resolves tt) st) in
  inputValue st' = []
  /\ selectedFiles st' = []
  /\ pastedArtifactItems st' = []
  /\ contextText st' = None.
Proof.
  intros G. apply isSubmittingEnabled_guard in G.
  rewrite (onSubmit_enabled _ _ _ _ G). simpl. auto.
Qed.

Lemma onSubmit_success_clears_input_witness :
  let ctx := mkCtx false (Some (Js.lit "s1")) [] true None in
  let st := mkState [mkFile (Js.lit "a.txt") 3 7 0]
              [mkItem (Js.lit "i") (Js.lit "u") (Js.lit "n") 5] None false
              (Some (Js.lit "quoted")) (Js.lit " hello ") true false None None
              false None false in
  let st' := state_of (onSubmit ctx st (Resolves tt) st) in
  submitGuard ctx st
  /\ inputValue st' = [] /\ selectedFiles st' = []
  /\ pastedArtifactItems st' = [] /\ contextText st' = None.
Proof.
  intros ctx st.
  assert (G : submitGuard ctx st).
  { split; [reflexivity|]. left. vm_compute. discriminate. }
  split; [exact G|].
  exact (onSubmit_success_clears_input ctx st st G).
Defined.

(** ** De-duplication of the Selected File Set *)

Lemma Js_eqb_eq (a b : str) : Js.eqb a b = true <-> a = b.
Proof.
  revert b. induction a as [|x a IH]; destruct b as [|y b]; simpl;
    try (split; congruence).
  rewrite andb_true_iff, N.eqb_eq, IH. split.
  - intros [-> ->]. reflexivity.
  - intros E. injection E. auto.
Qed.

Lemma Js_eqb_refl (a : str) : Js.eqb a a = true.
Proof. apply Js_eqb_eq. reflexivity. Qed.

Lemma Js_eqb_sym (a b : str) : Js.eqb a b = Js.eqb b a.
Proof.
  destruct (Js.eqb a b) eqn:E, (Js.eqb b a) eqn:F; try reflexivity.
  - apply Js_eqb_eq in E. subst. rewrite Js_eqb_refl in F. discriminate.
  - apply Js_eqb_eq in F. subst. rewrite Js_eqb_refl in E. discriminate.
Qed.

Lemma sameFile_sym (f g : File) : sameFile f g = sameFile g f.
Proof.
  unfold sameFile.
  rewrite (Js_eqb_sym (name f)), (Z.eqb_sym (size f)),
    (Z.eqb_sym (lastModified f)).
  reflexivity.
Qed.

Lemma filterNewFiles_in selected files g :
  In g (filterNewFiles selected files) ->
  In g files /\ forall f, In f selected -> sameFile f g = false.
Proof.
  unfold filterNewFiles. rewrite filter_In, negb_true_iff.
  intros [Hin Hex]. split; [exact Hin|].
  intros f Hf. destruct (sameFile f g) eqn:E; [|reflexivity].
  assert (existsb (fun e => sameFile e g) selected = true)
    by (apply existsb_exists; eauto).
  congruence.
Qed.

Lemma atMostOneInstance_filter (p : File -> bool) (l : list File) :
  atMostOneInstance l -> atMostOneInstance (filter p l).
Proof.
  induction l as [|f l IH]; simpl; [trivial|].
  intros [Hf Hl]. destruct (p f); simpl; auto.
  split; auto. intros g Hg. apply Hf. apply filter_In in Hg. tauto.
Qed.

Lemma atMostOneInstance_app (a b : list File) :
  atMostOneInstance a -> atMostOneInstance b ->
  (forall f g, In f a -> In g b -> sameFile f g = false) ->
  atMostOneInstance (a ++ b).
Proof.
  induction a as [|x a IH]; simpl; intros Ha Hb Hab; [exact Hb|].
  destruct Ha as [Hx Ha]. split.
  - intros g Hg. apply in_app_or in Hg. destruct Hg; auto.
  - apply IH; auto.
Qed.

(** Merging a batch that itself holds one file per key keeps the set free of
    duplicates. *)
Lemma merge_keeps_one_instance (selected files : list File) :
  atMostOneInstance selected -> atMostOneInstance files ->
  atMostOneInstance (selected ++ filterNewFiles selected files).
Proof.
  intros Hs Hf. apply atMostOneInstance_app.
  - exact Hs.
  - apply atMostOneInstance_filter. exact Hf.
  - intros f g Hin Hg. apply filterNewFiles_in in Hg. apply Hg. exact Hin.
Qed.

Lemma handleFilesDropped_files ctx st files :
  selectedFiles (state_of (handleFilesDropped ctx st files st)) =
    if isResponding ctx then selectedFiles st
    else selectedFiles st ++ filterNewFiles (selectedFiles st) files.
Proof.
  unfold handleFilesDropped, when.
  destruct (isResponding ctx); [reflexivity|].
  destruct (filterNewFiles (selectedFiles st) files); simpl;
    [rewrite app_nil_r|]; reflexivity.
Qed.

Lemma handleFileChange_files st files :
  selectedFiles (state_of (handleFileChange st (Some files) st)) =
    selectedFiles st ++ filterNewFiles (selectedFiles st) files.
Proof.
  unfold handleFileChange, when, bind.
  destruct (filterNewFiles (selectedFiles st) files); simpl;
    [rewrite app_nil_r|]; reflexivity.
Qed.

Lemma handlePaste_files isLargeText ctx st cb :
  isResponding ctx = false -> clip_files cb <> [] ->
  selectedFiles (state_of (handlePaste isLargeText ctx st (Some cb) st)) =
    selectedFiles st ++ filterNewFiles (selectedFiles st) (clip_files cb).
Proof.
  intros R F. unfold handlePaste, when, bind. rewrite R.
  destruct (clip_files cb) as [|f fs]; [congruence|].
  cbn [List.length Nat.ltb Nat.leb].
  destruct (filterNewFiles (selectedFiles st) (f :: fs)); simpl;
    [rewrite app_nil_r|]; reflexivity.
Qed.

(** As long as no single batch brings two files with one key, the picker,
    paste and drop handlers keep at most one file per key selected. *)
Lemma arrivals_keep_one_instance isLargeText ctx st files :
  atMostOneInstance (selectedFiles st) -> atMostOneInstance files ->
  atMostOneInstance
    (selectedFiles (state_of (handleFileChange st (Some files) st)))
  /\ atMostOneInstance
      (selectedFiles (state_of (handleFilesDropped ctx st files st)))
  /\ atMostOneInstance
      (selectedFiles
         (state_of (handlePaste isLargeText ctx st
                      (Some (mkClipboard files [])) st))).
Proof.
  intros Hs Hf. repeat split.
  - rewrite handleFileChange_files. apply merge_keeps_one_instance; assumption.
  - rewrite handleFilesDropped_files.
    destruct (isResponding ctx); [|apply merge_keeps_one_instance]; assumption.
  - destruct (isResponding ctx) eqn:R.
    + unfold handlePaste. rewrite R. exact Hs.
    + destruct files as [|f fs].
      * unfold handlePaste. rewrite R. exact Hs.
      * rewrite handlePaste_files by (simpl; congruence).
        apply merge_keeps_one_instance; assumption.
Qed.

(** C3. The three arrival paths test a new file only against the files that
    are already selected, never against the rest of its own batch: a batch of
    two files with one (name, size, last-modified) key, arriving on an empty
    selection through the picker, a paste or a drop, leaves both selected. *)
Theorem duplicate_in_one_batch_is_selected_twice :
  let ctx := mkCtx false (Some (Js.lit "s1")) [] true None in
  let st := initial ctx in
  let f1 := mkFile (Js.lit "report.txt") 10 1000 0 in
  let f2 := mkFile (Js.lit "report.txt") 10 1000 1 in
  f1 <> f2
  /\ sameFile f1 f2 = true
  /\ atMostOneInstance (selectedFiles st)
  /\ selectedFiles (state_of (handleFileChange st (Some [f1; f2]) st))
     = [f1; f2]
  /\ selectedFiles (state_of (handlePaste (fun _ => false) ctx st
                                (Some (mkClipboard [f1; f2] [])) st))
     = [f1; f2]
  /\ selectedFiles (state_of (handleFilesDropped ctx st [f1; f2] st))
     = [f1; f2]
  /\ ~ atMostOneInstance [f1; f2].
Proof.
  cbv zeta. split; [discriminate|]. repeat split; try reflexivity.
  intros [H _]. specialize (H _ (or_introl eq_refl)). discriminate H.
Qed.

(** ** Paste interception *)

Lemma handlePaste_responding isLargeText ctx rd cbo st :
  isResponding ctx = true ->
  handlePaste isLargeText ctx rd cbo st = (Done tt, st, []).
Proof. intros R. unfold handlePaste. rewrite R. reflexivity. Qed.

Lemma handlePaste_text isLargeText ctx rd cb st :
  isResponding ctx = false -> clip_files cb = [] ->
  handlePaste isLargeText ctx rd (Some cb) st =
    if Js.truthy (clip_text cb) && isLargeText (clip_text cb) then
      (Done tt,
       mkState (selectedFiles st) (pastedArtifactItems st)
         (Some (clip_text cb)) true (contextText st) (inputValue st)
         (showPromptsCommand st) (showVariableDialog st)
         (pendingPromptGroup st) (sttError st) (isRecording st)
         (prevSessionIdRef st) (prevIsRespondingRef st),
       [GetClipboardText; PreventDefault])
    else (Done tt, st, [GetClipboardText]).
Proof.
  intros R F. unfold handlePaste, when, bind. rewrite R, F. simpl.
  destruct (Js.truthy (clip_text cb) && isLargeText (clip_text cb));
    reflexivity.
Qed.

(** C4, amended. A paste is ignored while the controller is responding.
    Otherwise, when the clipboard carries no files: a non-empty text that
    [isLargeText] classifies as large has its default insertion suppressed,
    becomes the pending paste content and opens the artifact dialog, the
    draft staying as it was; any other text causes no suppression and no
    state change, so that the browser inserts it. *)
Theorem handlePaste_text_rule isLargeText ctx rd st :
  (forall cbo, isResponding ctx = true ->
     handlePaste isLargeText ctx rd cbo st = (Done tt, st, []))
  /\ (forall cb,
        isResponding ctx = false -> clip_files cb = [] ->
        clip_text cb <> [] -> isLargeText (clip_text cb) = true ->
        let run := handlePaste isLargeText ctx rd (Some cb) st in
        trace_of run = [GetClipboardText; PreventDefault]
        /\ pendingPasteContent (state_of run) = Some (clip_text cb)
        /\ showArtifactForm (state_of run) = true
        /\ inputValue (state_of run) = inputValue st
        /\ selectedFiles (state_of run) = selectedFiles st)
  /\ (forall cb,
        isResponding ctx = false -> clip_files cb = [] ->
        clip_text cb = [] \/ isLargeText (clip_text cb) = false ->
        let run := handlePaste isLargeText ctx rd (Some cb) st in
        trace_of run = [GetClipboardText] /\ state_of run = st).
Proof.
  split; [|split].
  - intros cbo R. apply handlePaste_responding. exact R.
  - intros cb R F T L. cbv zeta. rewrite handlePaste_text by assumption.
    apply truthy_true in T. rewrite T, L. simpl. auto.
  - intros cb R F S. cbv zeta. rewrite handlePaste_text by assumption.
    destruct S as [E | L].
    + rewrite E. simpl. auto.
    + rewrite L, andb_false_r. simpl. auto.
Qed.

Lemma handlePaste_text_rule_witness :
  let big := fun s : str => (5 <=? List.length s)%nat in
  let ctx := mkCtx false (Some (Js.lit "s1")) [] true None in
  let st := mkState [] [] None false None (Js.lit "draft") false false None
              None false None false in
  let cb := mkClipboard [] (Js.lit "a long paste") in
  let run := handlePaste big ctx st (Some cb) st in
  trace_of run = [GetClipboardText; PreventDefault]
  /\ pendingPasteContent (state_of run) = Some (clip_text cb)
  /\ showArtifactForm (state_of run) = true
  /\ inputValue (state_of run) = inputValue st
  /\ selectedFiles (state_of run) = selectedFiles st.
Proof.
  intros big ctx st cb.
  refine (proj1 (proj2 (handlePaste_text_rule big ctx st st)) cb _ _ _ _).
  - reflexivity.
  - reflexivity.
  - vm_compute. discriminate.
  - reflexivity.
Defined.

(** C4 as stated fails on a paste that carries a file next to its text: the
    file branch returns first, so a large text is not made pending and a
    small text still has its default insertion suppressed. No classifier
    makes the rule hold without the condition on files. *)
Lemma handlePaste_text_rule_counterexample :
  let ctx := mkCtx false (Some (Js.lit "s1")) [] true None in
  let st := initial ctx in
  let f := mkFile (Js.lit "shot.png") 10 1000 0 in
  let cb := mkClipboard [f] (Js.lit "x") in
  (forall isLargeText,
     handlePaste isLargeText ctx st (Some cb) st =
       (Done tt,
        mkState [f] [] None false None [] false false None None false
          (Some (Js.lit "s1")) false,
        [PreventDefault]))
  /\ ~ (exists isLargeText, pasteRuleIgnoringFiles isLargeText).
Proof.
  cbv zeta. split; [reflexivity|].
  intros [isLargeText H].
  pose (ctx := mkCtx false (Some (Js.lit "s1")) [] true None).
  pose (cb := mkClipboard [mkFile (Js.lit "shot.png") 10 1000 0] (Js.lit "x")).
  destruct (H ctx (initial ctx) cb) as (_ & Large & Small).
  destruct (isLargeText (clip_text cb)) eqn:E.
  - destruct (Large eq_refl eq_refl) as (_ & P & _). discriminate P.
  - destruct (Small eq_refl eq_refl) as (N & _). apply N. left. reflexivity.
Qed.

Lemma sameFile_sameKey (e f : File) : sameFile e f = true <-> sameKey e f.
Proof.
  unfold sameFile, sameKey.
  rewrite !andb_true_iff, Js_eqb_eq, !Z.eqb_eq. tauto.
Qed.

Lemma filterNewFiles_in_iff selected files f :
  In f (filterNewFiles selected files)
  <-> In f files /\ ~ (exists e, In e selected /\ sameKey e f).
Proof.
  unfold filterNewFiles. rewrite filter_In, negb_true_iff. split.
  - intros [I E]. split; [exact I|]. intros (e & Ie & K).
    apply sameFile_sameKey in K.
    assert (existsb (fun x => sameFile x f) selected = true)
      by (apply existsb_exists; eauto).
    congruence.
  - intros [I N]. split; [exact I|].
    destruct (existsb (fun x => sameFile x f) selected) eqn:E; [|reflexivity].
    apply existsb_exists in E. destruct E as (e & Ie & K).
    apply sameFile_sameKey in K. exfalso. apply N. eauto.
Qed.

Lemma subsequence_filter (A : Type) (p : A -> bool) (l : list A) :
  subsequence (filter p l) l.
Proof.
  induction l as [|x l IH]; simpl; [constructor|].
  destruct (p x); constructor; exact IH.
Qed.

(** C9. A paste (while not responding) that carries at least one file only
    merges the files into the Selected File Set: default insertion is
    suppressed, the clipboard text is never read, so the run is the same
    whatever that text and whatever the classifier, and the pending paste
    content and the artifact dialog stay as they were. The merge keeps the
    files that were selected, in front and in their order, and puts behind
    them, in clipboard order, exactly the clipboard files whose (name, size,
    last-modified) key no file selected at render time has. *)
Theorem handlePaste_files_take_precedence isLargeText ctx rd st cb :
  isResponding ctx = false ->
  clip_files cb <> [] ->
  let run := handlePaste isLargeText ctx rd (Some cb) st in
  let added :=
    skipn (List.length (selectedFiles st)) (selectedFiles (state_of run)) in
  res_of run = Done tt
  /\ trace_of run = [PreventDefault]
  /\ state_of run =
       mkState
         (selectedFiles st ++ filterNewFiles (selectedFiles rd) (clip_files cb))
         (pastedArtifactItems st) (pendingPasteContent st)
         (showArtifactForm st) (contextText st) (inputValue st)
         (showPromptsCommand st) (showVariableDialog st)
         (pendingPromptGroup st) (sttError st) (isRecording st)
         (prevSessionIdRef st) (prevIsRespondingRef st)
  /\ pendingPasteContent (state_of run) = pendingPasteContent st
  /\ showArtifactForm (state_of run) = showArtifactForm st
  /\ (forall isLargeText' text',
        handlePaste isLargeText' ctx rd
          (Some (mkClipboard (clip_files cb) text')) st = run)
  /\ firstn (List.length (selectedFiles st)) (selectedFiles (state_of run))
     = selectedFiles st
  /\ (forall f, In f added
                <-> In f (clip_files cb)
                    /\ ~ (exists e, In e (selectedFiles rd) /\ sameKey e f))
  /\ subsequence added (clip_files cb).
Proof.
  intros R F.
  assert (E : handlePaste isLargeText ctx rd (Some cb) st =
              (Done tt,
               mkState
                 (selectedFiles st
                  ++ filterNewFiles (selectedFiles rd) (clip_files cb))
                 (pastedArtifactItems st) (pendingPasteContent st)
                 (showArtifactForm st) (contextText st) (inputValue st)
                 (showPromptsCommand st) (showVariableDialog st)
                 (pendingPromptGroup st) (sttError st) (isRecording st)
                 (prevSessionIdRef st) (prevIsRespondingRef st),
               [PreventDefault])).
  { unfold handlePaste, when, bind. rewrite R.
    destruct (clip_files cb) as [|f fs] eqn:C; [congruence|].
    cbn [List.length Nat.ltb Nat.leb].
    destruct (filterNewFiles (selectedFiles rd) (f :: fs)) eqn:N; simpl.
    - rewrite app_nil_r. destruct st; reflexivity.
    - reflexivity. }
  cbv zeta. rewrite E. unfold res_of, state_of, trace_of.
  cbn [fst snd selectedFiles pendingPasteContent showArtifactForm].
  do 5 (split; [reflexivity|]).
  split.
  - intros isLargeText' text'. unfold handlePaste, when, bind. rewrite R.
    cbn [clip_files clip_text].
    destruct (clip_files cb) as [|f fs] eqn:C; [congruence|].
    cbn [List.length Nat.ltb Nat.leb].
    destruct (filterNewFiles (selectedFiles rd) (f :: fs)) eqn:N; simpl.
    + rewrite app_nil_r. destruct st; reflexivity.
    + reflexivity.
  - split; [|split].
    + rewrite firstn_app, Nat.sub_diag, firstn_all. simpl. apply app_nil_r.
    + intros f. rewrite skipn_app, Nat.sub_diag, skipn_all. simpl.
      apply filterNewFiles_in_iff.
    + rewrite skipn_app, Nat.sub_diag, skipn_all. simpl.
      apply subsequence_filter.
Qed.

Lemma handlePaste_files_take_precedence_witness :
  let big := fun s : str => (5 <=? List.length s)%nat in
  let ctx := mkCtx false (Some (Js.lit "s1")) [] true None in
  let g := mkFile (Js.lit "old.png") 4 8 1 in
  let g' := mkFile (Js.lit "old.png") 4 8 7 in
  let f := mkFile (Js.lit "shot.png") 10 1000 0 in
  let st := mkState [g] [] None false None [] false false None None false
              (Some (Js.lit "s1")) false in
  let cb := mkClipboard [f; g'] (Js.lit "a long paste") in
  let run := handlePaste big ctx st (Some cb) st in
  big (clip_text cb) = true
  /\ trace_of run = [PreventDefault]
  /\ selectedFiles (state_of run) = [g; f]
  /\ pendingPasteContent (state_of run) = None
  /\ showArtifactForm (state_of run) = false.
Proof.
  intros big ctx g g' f st cb.
  assert (R : isResponding ctx = false) by reflexivity.
  assert (F : clip_files cb <> []) by (simpl; discriminate).
  destruct (handlePaste_files_take_precedence big ctx st st cb R F)
    as (_ & T & S & P & A & _).
  split; [reflexivity|]. split; [exact T|].
  split; [rewrite S; reflexivity|]. split; [exact P | exact A].
Defined.

(** ** Saving pasted content as an artifact *)

(** With a non-empty pending payload every exit of [handleSaveAsArtifact]
    passes through the [finally] block. *)
Lemma handleSaveAsArtifact_exits ctx rd st title fileType description
    upload refetch now1 now2 random36 content :
  pendingPasteContent rd = Some content -> content <> [] ->
  let run := handleSaveAsArtifact ctx rd title fileType description upload
               refetch now1 now2 random36 st in
  pendingPasteContent (state_of run) = None
  /\ showArtifactForm (state_of run) = false
  /\ errorNotifications (trace_of run)
     = if saveSucceeds upload refetch then 0 else 1.
Proof.
  intros P C. unfold handleSaveAsArtifact. rewrite P.
  destruct content as [|c cs]; [congruence|].
  unfold try_catch_finally, bind, when, await, errorNotifications.
  destruct upload as [[| e | uri sid]|e]; try (cbn; auto; fail).
  destruct refetch as [[]|e];
    destruct (Js.truthy_opt sid && negb (Js.opt_eqb sid (sessionId ctx)));
    cbn; auto.
Qed.

(** Only [handlePaste] stores a pending payload, and only a non-empty one. *)
Lemma step_pendingPasteContent isLargeText detectVariables ctx st ev :
  pendingPasteContent (step isLargeText detectVariables ctx st ev)
    = pendingPasteContent st
  \/ pendingPasteContent (step isLargeText detectVariables ctx st ev) = None
  \/ exists text, text <> []
       /\ pendingPasteContent (step isLargeText detectVariables ctx st ev)
          = Some text.
Proof.
  destruct ev as [loc | | text prompt autoSubmit | t submit | | files
    | clipboardData
    | title fileType description upload refetch now1 now2 random36
    | | index | submit | files | value cursorPosition | promptText
    | command context | id' | filename' | processedPrompt | | | text | error
    | | recording | key shiftKey submit]; unfold step, dispatch.
  all: try (unfold sessionEffect, respondingEffect, handleFollowUp, runTimer,
      handleFileSelect, handleFileChange, handleCancelArtifactForm,
      handleRemoveFile, onSubmit, onKeyDown, handleFilesDropped,
      handleInputChange, handlePromptSelect, handleChatCommand,
      handleRemovePastedArtifact, handleViewPastedArtifact,
      handleVariableSubmit, closeVariableDialog, handleTranscription,
      handleTranscriptionError, focusLater, when, bind, await, readRef;
      run_handler; auto; fail).
  - (* FollowUpQuestion *)
    unfold handleFollowUp, focusLater, bind.
    destruct prompt as [[|p ps]|], autoSubmit; cbn; auto.
  - (* TimerFires *)
    unfold runTimer, when, bind, await.
    destruct t, submit as [[]|e], (scrollToBottom ctx); cbn; auto.
  - (* FilesPicked *)
    unfold handleFileChange, focusLater, when, bind.
    destruct files as [files|]; [destruct (0 <? _)%nat|]; cbn; auto.
  - (* Pasted *)
    unfold handlePaste, when, bind.
    destruct (isResponding ctx); [auto|].
    destruct clipboardData as [cb|]; [|auto].
    destruct (0 <? List.length (clip_files cb))%nat.
    + destruct (0 <? _)%nat; cbn; auto.
    + destruct (Js.truthy (clip_text cb)) eqn:T; cbn; [|auto].
      destruct (isLargeText (clip_text cb)); cbn; [|auto].
      right. right. exists (clip_text cb). split; [|reflexivity].
      apply truthy_true. exact T.
  - (* SaveAsArtifact *)
    destruct (pendingPasteContent st) as [[|c cs]|] eqn:P;
      try (unfold handleSaveAsArtifact; rewrite P; auto; fail).
    right. left.
    apply (handleSaveAsArtifact_exits ctx st st title fileType description
             upload refetch now1 now2 random36 (c :: cs) P).
    discriminate.
  - (* SendClicked *)
    destruct (isSubmittingEnabled ctx st) eqn:E.
    + rewrite (onSubmit_enabled _ _ _ _ E). destruct submit; cbn; auto.
    + rewrite (onSubmit_disabled _ _ _ _ E). auto.
  - (* KeyPressed *)
    unfold onKeyDown, when, detached.
    destruct (Js.eqb key (Js.lit "Enter") && negb shiftKey); cbn [andb];
      [|auto].
    destruct (isSubmittingEnabled ctx st) eqn:E; [|auto].
    rewrite (onSubmit_enabled _ _ _ _ E). destruct submit; cbn; auto.
Qed.

Lemma reachable_pendingPasteContent isLargeText detectVariables st :
  reachable isLargeText detectVariables st ->
  pendingPasteContent st <> Some [].
Proof.
  induction 1 as [ctx | ctx st ev _ IH]; [discriminate|].
  destruct (step_pendingPasteContent isLargeText detectVariables ctx st ev)
    as [E | [E | (text & T & E)]]; rewrite E; congruence.
Qed.

(** C5. Whenever [handleSaveAsArtifact] runs in a state the component can
    reach with a pending paste payload, then on every exit (a reference, an
    error-shaped result, a falsy result, a rejected upload or a rejected
    refresh) the pending paste content is null and the artifact dialog is
    closed afterwards; a failing run emits exactly one error notification
    and a succeeding run none. *)
Theorem handleSaveAsArtifact_always_releases isLargeText detectVariables
    ctx st title fileType description upload refetch now1 now2 random36 :
  reachable isLargeText detectVariables st ->
  pendingPasteContent st <> None ->
  let run := handleSaveAsArtifact ctx st title fileType description upload
               refetch now1 now2 random36 st in
  pendingPasteContent (state_of run) = None
  /\ showArtifactForm (state_of run) = false
  /\ (saveSucceeds upload refetch = false ->
      errorNotifications (trace_of run) = 1)
  /\ (saveSucceeds upload refetch = true ->
      errorNotifications (trace_of run) = 0).
Proof.
  intros Hr Hp.
  pose proof (reachable_pendingPasteContent _ _ _ Hr) as Hne.
  destruct (pendingPasteContent st) as [content|] eqn:P; [|congruence].
  assert (C : content <> []) by (intros ->; apply Hne; reflexivity).
  destruct (handleSaveAsArtifact_exits ctx st st title fileType description
              upload refetch now1 now2 random36 content P C) as (A & B & E).
  cbv zeta. repeat split; try assumption; intros S; rewrite S in E; exact E.
Qed.

Lemma handleSaveAsArtifact_always_releases_witness :
  let big := fun s : str => (5 <=? List.length s)%nat in
  let dv := fun _ : str => @nil str in
  let ctx := mkCtx false (Some (Js.lit "s1")) [] true None in
  let st := step big dv ctx (initial ctx)
              (Pasted (Some (mkClipboard [] (Js.lit "a long paste")))) in
  let run := handleSaveAsArtifact ctx st (Js.lit "notes.txt") (Js.lit "auto")
               None (Resolves (UploadError (Js.lit "boom"))) (Resolves tt)
               1 2 (Js.lit "0.k3j9x2m1") st in
  pendingPasteContent st = Some (Js.lit "a long paste")
  /\ showArtifactForm st = true
  /\ pendingPasteContent (state_of run) = None
  /\ showArtifactForm (state_of run) = false
  /\ errorNotifications (trace_of run) = 1.
Proof.
  intros big dv ctx st run.
  assert (Hr : reachable big dv st)
    by (apply reachable_step; apply reachable_initial).
  assert (Hp : pendingPasteContent st <> None) by (simpl; discriminate).
  destruct (handleSaveAsArtifact_always_releases big dv ctx st
              (Js.lit "notes.txt") (Js.lit "auto") None
              (Resolves (UploadError (Js.lit "boom"))) (Resolves tt)
              1 2 (Js.lit "0.k3j9x2m1") Hr Hp) as (A & B & E & _).
  split; [reflexivity|]. split; [reflexivity|].
  split; [exact A|]. split; [exact B|]. exact (E eq_refl).
Defined.

(** ** The session-change reset *)

Lemma Js_opt_eqb_eq (a b : option str) : Js.opt_eqb a b = true <-> a = b.
Proof.
  destruct a as [a|], b as [b|]; simpl; try (split; congruence).
  rewrite Js_eqb_eq. split; congruence.
Qed.

(** Is the reset taken: the previous id is truthy and differs from the
    current one. *)
Lemma session_changed_true prev sid s1 :
  prev = Some s1 -> s1 <> [] -> sid <> Some s1 ->
  Js.truthy_opt prev && negb (Js.opt_eqb prev sid) = true.
Proof.
  intros -> T D. apply truthy_true in T. unfold Js.truthy_opt. rewrite T.
  destruct (Js.opt_eqb (Some s1) sid) eqn:E; [|reflexivity].
  apply Js_opt_eqb_eq in E. congruence.
Qed.

Lemma session_changed_false prev sid :
  prev = None \/ prev = Some [] ->
  Js.truthy_opt prev && negb (Js.opt_eqb prev sid) = false.
Proof. intros [-> | ->]; reflexivity. Qed.

Lemma sessionEffect_plain detectVariables ctx loc st :
  hasRouterPrompt loc = false ->
  sessionEffect detectVariables ctx loc st =
    let changed :=
      Js.truthy_opt (prevSessionIdRef st)
      && negb (Js.opt_eqb (prevSessionIdRef st) (sessionId ctx)) in
    (Done tt,
     mkState (selectedFiles st)
       (if changed then [] else pastedArtifactItems st)
       (pendingPasteContent st) (showArtifactForm st) None
       (if changed then [] else inputValue st)
       (if changed then false else showPromptsCommand st)
       (showVariableDialog st) (pendingPromptGroup st) (sttError st)
       (isRecording st) (sessionId ctx) (prevIsRespondingRef st),
     []).
Proof.
  intros H. cbv zeta.
  assert (E : sessionEffect detectVariables ctx loc st =
              sessionEffect detectVariables ctx None st).
  { destruct loc as [[[[|c p]|] g n]|]; simpl in H; try discriminate;
      reflexivity. }
  rewrite E. unfold sessionEffect, bind, when, readRef.
  destruct (Js.truthy_opt (prevSessionIdRef st)
            && negb (Js.opt_eqb (prevSessionIdRef st) (sessionId ctx)));
    reflexivity.
Qed.

(** A run that consumes a router prompt returns before the comparison: it
    leaves the previous-id ref, the files, the badges and the popover. *)
Lemma sessionEffect_router detectVariables ctx loc st :
  hasRouterPrompt loc = true ->
  let run := sessionEffect detectVariables ctx loc st in
  res_of run = Done tt
  /\ prevSessionIdRef (state_of run) = prevSessionIdRef st
  /\ selectedFiles (state_of run) = selectedFiles st
  /\ pastedArtifactItems (state_of run) = pastedArtifactItems st
  /\ showPromptsCommand (state_of run) = showPromptsCommand st.
Proof.
  intros H. destruct loc as [[[[|c p]|] g n]|]; simpl in H; try discriminate.
  cbv zeta. unfold sessionEffect, bind, focusLater.
  destruct (0 <? List.length (detectVariables (c :: p)))%nat; cbn; auto.
Qed.

(** C6, amended. When the previous session id is a non-empty value and the
    current id differs from it, the draft is cleared, the slash-command
    popover is closed and the pasted-artifact badges are cleared, while the
    Selected File Set is left as it is; when the previous id is null,
    undefined or the empty string, the popover, the badges and the files are
    left as they are, and so is the draft unless a router prompt replaces
    it. *)
Theorem session_change_reset detectVariables ctx loc st :
  let st' := state_of (sessionChange detectVariables ctx loc st) in
  (forall s1,
      prevSessionIdRef st = Some s1 -> s1 <> [] -> sessionId ctx <> Some s1 ->
      inputValue st' = []
      /\ showPromptsCommand st' = false
      /\ pastedArtifactItems st' = []
      /\ selectedFiles st' = selectedFiles st)
  /\ (prevSessionIdRef st = None \/ prevSessionIdRef st = Some [] ->
      showPromptsCommand st' = showPromptsCommand st
      /\ pastedArtifactItems st' = pastedArtifactItems st
      /\ selectedFiles st' = selectedFiles st
      /\ (hasRouterPrompt loc = false -> inputValue st' = inputValue st)).
Proof.
  cbv zeta. unfold sessionChange, bind, when.
  destruct (hasRouterPrompt loc) eqn:R.
  - destruct (sessionEffect_router detectVariables ctx loc st R)
      as (D & P & F & B & S).
    destruct (sessionEffect detectVariables ctx loc st) as [[r st1] t1].
    unfold res_of, state_of in *. simpl in D, P, F, B, S. subst r.
    rewrite (sessionEffect_plain detectVariables ctx
               (Some (mkLoc None None None)) st1 eq_refl).
    cbv zeta. simpl. rewrite P. split.
    + intros s1 E T N. rewrite (session_changed_true _ _ s1 E T N). auto.
    + intros E. rewrite (session_changed_false _ (sessionId ctx) E).
      repeat split; auto. discriminate.
  - rewrite (sessionEffect_plain detectVariables ctx loc st R).
    cbv zeta. simpl. split.
    + intros s1 E T N. rewrite (session_changed_true _ _ s1 E T N). auto.
    + intros E. rewrite (session_changed_false _ (sessionId ctx) E). auto.
Qed.

Lemma session_change_reset_witness :
  let dv := fun _ : str => @nil str in
  let ctx := mkCtx false (Some (Js.lit "s2")) [] true None in
  let f := mkFile (Js.lit "a.txt") 3 7 0 in
  let st := mkState [f] [mkItem (Js.lit "i") (Js.lit "u") (Js.lit "n") 5]
              None false None (Js.lit "draft") true false None None false
              (Some (Js.lit "s1")) false in
  let st' := state_of (sessionChange dv ctx None st) in
  inputValue st' = []
  /\ showPromptsCommand st' = false
  /\ pastedArtifactItems st' = []
  /\ selectedFiles st' = [f].
Proof.
  intros dv ctx f st.
  refine (proj1 (session_change_reset dv ctx None st) (Js.lit "s1") _ _ _).
  - reflexivity.
  - vm_compute. discriminate.
  - vm_compute. discriminate.
Defined.

(** C6 as stated fails for a previous id that is defined but empty: the
    comparison is guarded by the truth of the previous id, and the empty
    string is falsy, so a change from the empty id to [s1] resets nothing. *)
Lemma session_change_reset_counterexample :
  let dv := fun _ : str => @nil str in
  let ctx := mkCtx false (Some (Js.lit "s1")) [] true None in
  let st := mkState [] [] None false None (Js.lit "draft") true false None
              None false (Some []) false in
  (prevSessionIdRef st = Some []
   /\ sessionId ctx <> Some []
   /\ inputValue (state_of (sessionChange dv ctx None st)) = Js.lit "draft"
   /\ showPromptsCommand (state_of (sessionChange dv ctx None st)) = true)
  /\ ~ sessionResetOnAnyDefinedId.
Proof.
  cbv zeta. split.
  - repeat split; try reflexivity. vm_compute. discriminate.
  - intros H.
    specialize (H (fun _ => [])
                  (mkCtx false (Some (Js.lit "s1")) [] true None) None
                  (mkState [] [] None false None (Js.lit "draft") true false
                     None None false (Some []) false) [] eq_refl).
    destruct H as (I & _); [vm_compute; discriminate|].
    vm_compute in I. discriminate I.
Qed.

(** ** Slash-command detection *)

Lemma substring_prefix (s : str) (c : Z) :
  (0 <= c <= Js.len s)%Z -> Js.substring s 0 c = firstn (Z.to_nat c) s.
Proof.
  unfold Js.len. intros H. unfold Js.substring, Js.clamp.
  rewrite Z.max_id, (Z.min_l 0) by lia.
  rewrite (Z.max_l c 0), (Z.min_l c) by lia.
  change (Z.to_nat 0) with 0%nat.
  rewrite Nat.min_0_l, Nat.max_0_l, Nat.sub_0_r. reflexivity.
Qed.

Lemma at_last (pre : str) (c : N) :
  Js.at_ (pre ++ [c]) (Js.len (pre ++ [c]) - 1) = Some c.
Proof.
  unfold Js.at_, Js.len. rewrite length_app. simpl List.length.
  destruct (_ <? 0)%Z eqn:E; [apply Z.ltb_lt in E; lia|].
  replace (Z.to_nat (Z.of_nat (List.length pre + 1) - 1))
    with (List.length pre + 0)%nat by lia.
  rewrite nth_error_app2 by lia.
  replace (List.length pre + 0 - List.length pre)%nat with 0%nat by lia.
  reflexivity.
Qed.

Lemma at_before_last (pre : str) (d c : N) :
  Js.at_ (pre ++ [d; c]) (Js.len (pre ++ [d; c]) - 2) = Some d.
Proof.
  unfold Js.at_, Js.len. rewrite length_app. simpl List.length.
  destruct (_ <? 0)%Z eqn:E; [apply Z.ltb_lt in E; lia|].
  replace (Z.to_nat (Z.of_nat (List.length pre + 2) - 2))
    with (List.length pre + 0)%nat by lia.
  rewrite nth_error_app2 by lia.
  replace (List.length pre + 0 - List.length pre)%nat with 0%nat by lia.
  reflexivity.
Qed.

Lemma last_two_cases (l : str) :
  l = [] \/ (exists c, l = [c]) \/ exists pre d c, l = pre ++ [d; c].
Proof.
  destruct l as [|x l _] using rev_ind; [auto|]. right.
  destruct l as [|y l _] using rev_ind; [left; exists x; reflexivity|].
  right.
  exists l, y, x. rewrite <- app_assoc. reflexivity.
Qed.

Lemma slashTriggerb_spec (before : str) :
  slashTriggerb before = true <-> slashTrigger before.
Proof.
  unfold slashTrigger.
  destruct (last_two_cases before) as [-> | [[c ->] | (pre & d & c & ->)]].
  - split; [discriminate|].
    intros [E | (pre & d & E & _)]; [discriminate|].
    destruct pre; discriminate.
  - unfold slashTriggerb. cbn. rewrite orb_true_r || idtac.
    rewrite andb_true_r. rewrite N.eqb_eq. split.
    + intros ->. left. reflexivity.
    + intros [E | (pre & d & E & _)]; [congruence|].
      apply (f_equal (@List.length N)) in E. rewrite length_app in E.
      simpl in E. lia.
  - unfold slashTriggerb. rewrite at_before_last.
    change (pre ++ [d; c]) with (pre ++ [d] ++ [c]).
    rewrite app_assoc, at_last. simpl.
    rewrite andb_true_iff, orb_true_iff, !N.eqb_eq. split.
    + intros [-> D]. right. exists pre, d. rewrite <- app_assoc. auto.
    + intros [E | (pre' & d' & E & D)].
      * apply (f_equal (@List.length N)) in E. rewrite !length_app in E.
        simpl in E. lia.
      * rewrite <- app_assoc in E. simpl in E.
        change (pre ++ [d; c]) with (pre ++ [d] ++ [c]) in E.
        change (pre' ++ [d'; Js.slash]) with (pre' ++ [d'] ++ [Js.slash]) in E.
        rewrite !app_assoc in E.
        apply app_inj_tail in E. destruct E as [E ->].
        apply app_inj_tail in E. destruct E as [_ ->]. auto.
Qed.

Lemma includes_spec (s : str) (c : N) : Js.includes s c = true <-> In c s.
Proof.
  unfold Js.includes. rewrite existsb_exists. split.
  - intros (x & I & E). apply N.eqb_eq in E. subst. exact I.
  - intros I. exists c. split; [exact I | apply N.eqb_refl].
Qed.

Lemma handleInputChange_run rd value cursorPosition st :
  handleInputChange rd value cursorPosition st =
    let before := Js.substring value 0 cursorPosition in
    (Done tt,
     mkState (selectedFiles st) (pastedArtifactItems st)
       (pendingPasteContent st) (showArtifactForm st) (contextText st) value
       (if slashTriggerb before then true
        else if showPromptsCommand rd && negb (Js.includes before Js.slash)
             then false else showPromptsCommand st)
       (showVariableDialog st) (pendingPromptGroup st) (sttError st)
       (isRecording st) (prevSessionIdRef st) (prevIsRespondingRef st),
     []).
Proof.
  cbv zeta. unfold handleInputChange, bind, when.
  fold (slashTriggerb (Js.substring value 0 cursorPosition)).
  destruct (slashTriggerb _); [reflexivity|].
  destruct (showPromptsCommand rd && negb _); reflexivity.
Qed.

(** C7. After [handleInputChange] the draft is the new value and, with
    [before] the text in front of the cursor: the popover is open if
    [before] ends in a [/] that starts it or follows a space or a newline;
    otherwise, if the popover was open and [before] holds no [/], it is
    closed; in every other case its visibility is unchanged. *)
Theorem handleInputChange_popover st value cursorPosition :
  (0 <= cursorPosition <= Js.len value)%Z ->
  let before := firstn (Z.to_nat cursorPosition) value in
  let st' := state_of (handleInputChange st value cursorPosition st) in
  inputValue st' = value
  /\ (slashTrigger before -> showPromptsCommand st' = true)
  /\ (~ slashTrigger before -> showPromptsCommand st = true ->
      ~ In Js.slash before -> showPromptsCommand st' = false)
  /\ (~ slashTrigger before ->
      showPromptsCommand st = false \/ In Js.slash before ->
      showPromptsCommand st' = showPromptsCommand st).
Proof.
  intros H. cbv zeta. rewrite handleInputChange_run. cbv zeta.
  rewrite (substring_prefix value cursorPosition H). simpl.
  split; [reflexivity|]. split; [|split].
  - intros T. apply slashTriggerb_spec in T. rewrite T. reflexivity.
  - intros T O I.
    destruct (slashTriggerb _) eqn:B; [apply slashTriggerb_spec in B; tauto|].
    rewrite O. simpl.
    destruct (Js.includes _ _) eqn:C; [apply includes_spec in C; tauto|].
    reflexivity.
  - intros T D.
    destruct (slashTriggerb _) eqn:B; [apply slashTriggerb_spec in B; tauto|].
    destruct D as [O | I].
    + rewrite O. reflexivity.
    + apply includes_spec in I. rewrite I, andb_false_r. reflexivity.
Qed.

Lemma handleInputChange_popover_witness :
  let st := mkState [] [] None false None (Js.lit "see ") false false None
              None false None false in
  let st' := state_of (handleInputChange st (Js.lit "see /") 5 st) in
  slashTrigger (Js.lit "see /")
  /\ inputValue st' = Js.lit "see /"
  /\ showPromptsCommand st' = true.
Proof.
  intros st.
  assert (H : (0 <= 5 <= Js.len (Js.lit "see /"))%Z) by (vm_compute; split; discriminate).
  assert (T : slashTrigger (Js.lit "see /")).
  { right. exists (Js.lit "see"), Js.space. split; [reflexivity | auto]. }
  destruct (handleInputChange_popover st (Js.lit "see /") 5 H) as (V & O & _).
  split; [exact T|]. split; [exact V | exact (O T)].
Defined.

(** ** Prompt insertion *)

Lemma lastIndexOf_from_absent (s : str) (c : N) (i found : Z) :
  ~ In c s -> Js.lastIndexOf_from s c i found = found.
Proof.
  revert i found. induction s as [|x s IH]; simpl; intros i found H;
    [reflexivity|].
  destruct (N.eqb x c) eqn:E.
  - apply N.eqb_eq in E. subst. tauto.
  - apply IH. tauto.
Qed.

Lemma lastIndexOf_from_last (pre tok : str) (c : N) (i found : Z) :
  ~ In c tok ->
  Js.lastIndexOf_from (pre ++ c :: tok) c i found = (i + Js.len pre)%Z.
Proof.
  intros H. revert i found.
  induction pre as [|x pre IH]; intros i found; simpl.
  - rewrite N.eqb_refl, lastIndexOf_from_absent by exact H.
    unfold Js.len. simpl. lia.
  - rewrite IH. unfold Js.len. simpl List.length. lia.
Qed.

Lemma substring_from_suffix (s : str) (n : nat) :
  (n <= List.length s)%nat -> Js.substring_from s (Z.of_nat n) = skipn n s.
Proof.
  intros H. unfold Js.substring_from, Js.clamp.
  rewrite Z.max_l, Z.min_l by lia. rewrite Nat2Z.id. reflexivity.
Qed.

Lemma substring_to_minus_one (s : str) : Js.substring s 0 (-1) = [].
Proof.
  unfold Js.substring, Js.clamp.
  change (Z.max (-1) 0) with 0%Z. rewrite Z.max_id, Z.min_l by lia.
  reflexivity.
Qed.

Lemma handlePromptSelect_run ctx rd promptText st :
  handlePromptSelect ctx rd promptText st =
    let cursorPosition :=
      match selectionStart ctx with Some n => n | None => 0%Z end in
    let before := Js.substring (inputValue rd) 0 cursorPosition in
    (Done tt,
     mkState (selectedFiles st) (pastedArtifactItems st)
       (pendingPasteContent st) (showArtifactForm st) (contextText st)
       (Js.substring before 0 (Js.lastIndexOf before Js.slash) ++ promptText
          ++ Js.substring_from (inputValue rd) cursorPosition)
       false (showVariableDialog st) (pendingPromptGroup st) (sttError st)
       (isRecording st) (prevSessionIdRef st) (prevIsRespondingRef st),
     [SetTimeout FocusInput 100]).
Proof. reflexivity. Qed.

(** Without a [/] before the cursor, [lastIndexOf] is [-1] and the whole
    text before the cursor is dropped. *)
Lemma handlePromptSelect_without_slash ctx rd promptText st n :
  selectionStart ctx = Some (Z.of_nat n) ->
  (n <= List.length (inputValue rd))%nat ->
  ~ In Js.slash (firstn n (inputValue rd)) ->
  inputValue (state_of (handlePromptSelect ctx rd promptText st))
  = promptText ++ skipn n (inputValue rd).
Proof.
  intros S L H. rewrite handlePromptSelect_run, S. cbv zeta. simpl.
  rewrite (substring_prefix (inputValue rd) (Z.of_nat n))
    by (unfold Js.len; lia).
  rewrite Nat2Z.id.
  unfold Js.lastIndexOf. rewrite lastIndexOf_from_absent by exact H.
  rewrite substring_to_minus_one, substring_from_suffix by exact L.
  reflexivity.
Qed.

(** C8, amended. Whenever a [/] precedes the cursor the text area reports,
    [handlePromptSelect] sets the draft to the text before the last such
    [/], then the prompt text, then the text after the cursor, and closes
    the popover; draft [hello /wor] with the cursor at its end and prompt
    text [world!] gives [hello world!]. *)
Theorem handlePromptSelect_replaces_token :
  (forall ctx rd st promptText n pre tok,
      selectionStart ctx = Some (Z.of_nat n) ->
      (n <= List.length (inputValue rd))%nat ->
      firstn n (inputValue rd) = pre ++ Js.slash :: tok ->
      ~ In Js.slash tok ->
      let st' := state_of (handlePromptSelect ctx rd promptText st) in
      inputValue st' = pre ++ promptText ++ skipn n (inputValue rd)
      /\ showPromptsCommand st' = false)
  /\ (let ctx := mkCtx false (Some (Js.lit "s1")) [] true (Some 10%Z) in
      let st := mkState [] [] None false None (Js.lit "hello /wor") true
                  false None None false (Some (Js.lit "s1")) false in
      inputValue (state_of (handlePromptSelect ctx st (Js.lit "world!") st))
      = Js.lit "hello world!").
Proof.
  split; [|reflexivity].
  intros ctx rd st promptText n pre tok S L B T. cbv zeta.
  rewrite handlePromptSelect_run, S. cbv zeta. simpl.
  split; [|reflexivity].
  rewrite (substring_prefix (inputValue rd) (Z.of_nat n))
    by (unfold Js.len; lia).
  rewrite Nat2Z.id, B.
  unfold Js.lastIndexOf. rewrite lastIndexOf_from_last by exact T.
  rewrite Z.add_0_l, substring_prefix
    by (unfold Js.len; rewrite length_app; lia).
  unfold Js.len. rewrite Nat2Z.id, firstn_app, Nat.sub_diag, firstn_all.
  simpl. rewrite app_nil_r, substring_from_suffix by exact L. reflexivity.
Qed.

Lemma handlePromptSelect_replaces_token_witness :
  let ctx := mkCtx false (Some (Js.lit "s1")) [] true (Some 10%Z) in
  let st := mkState [] [] None false None (Js.lit "draft /wor and more") true
              false None None false (Some (Js.lit "s1")) false in
  let st' := state_of (handlePromptSelect ctx st (Js.lit "world!") st) in
  inputValue st' = Js.lit "draft " ++ Js.lit "world!" ++ Js.lit " and more"
  /\ showPromptsCommand st' = false.
Proof.
  intros ctx st.
  refine (proj1 handlePromptSelect_replaces_token ctx st st (Js.lit "world!")
            10%nat (Js.lit "draft ") (Js.lit "wor") _ _ _ _).
  - reflexivity.
  - vm_compute. lia.
  - reflexivity.
  - vm_compute. intuition discriminate.
Defined.

(** C8 as stated fails where no [/] precedes the cursor, which the
    component reaches with the popover open: a [/] is typed, then a
    follow-up question replaces the draft. There [lastIndexOf] is [-1],
    nothing is kept of the text before the cursor, and no split of that text
    at a [/] exists. *)
Lemma handlePromptSelect_replaces_token_counterexample :
  let ctx := mkCtx false (Some (Js.lit "s1")) [] true (Some 8%Z) in
  let st := runEvents (fun _ => false) (fun _ => [])
              [(ctx, InputChanged (Js.lit "/") 1);
               (ctx, FollowUpQuestion (Js.lit "selected")
                       (Some (Js.lit "Explain")) false)] (initial ctx) in
  (showPromptsCommand st = true
   /\ inputValue st = Js.lit "Explain "
   /\ ~ In Js.slash (firstn 8 (inputValue st))
   /\ inputValue (state_of (handlePromptSelect ctx st (Js.lit "P:") st))
      = Js.lit "P:")
  /\ ~ promptReplacesTokenEverywhere.
Proof.
  cbv zeta. split.
  - repeat split; try reflexivity. vm_compute. intuition discriminate.
  - intros H.
    pose (ctx := mkCtx false (Some (Js.lit "s1")) [] true (Some 8%Z)).
    pose (st := mkState [] [] None false (Some (Js.lit "selected"))
                  (Js.lit "Explain ") true false None None false
                  (Some (Js.lit "s1")) false).
    destruct (H ctx st st (Js.lit "P:") 8%nat eq_refl) as (pre & tok & B & _).
    { vm_compute. lia. }
    assert (I : In Js.slash (firstn 8 (inputValue st))).
    { rewrite B. apply in_or_app. right. left. reflexivity. }
    vm_compute in I. intuition discriminate.
Qed.

(** ** The follow-up auto-submit path *)

(** C10. A follow-up question with a prompt and the auto-submit flag stores
    the selected text as context, pre-fills the draft and schedules one
    callback. When it fires, in whatever state and whether or not the
    controller is responding, the callback calls the Session context's
    submit with no attachments and the message
    prompt + "\n\nContext: " + the quoted text; once that call completes
    the draft is empty and the context string null, and the Selected File
    Set and the pasted-artifact badges are as they were. *)
Theorem followUp_autoSubmit_path text prompt st :
  prompt <> [] ->
  let scheduled := handleFollowUp text (Some prompt) true st in
  trace_of scheduled = [SetTimeout (AutoSubmit prompt text) 50]
  /\ contextText (state_of scheduled) = Some text
  /\ inputValue (state_of scheduled) = prompt ++ [Js.space]
  /\ forall ctx st1 submit,
       let fired := runTimer ctx (AutoSubmit prompt text) submit st1 in
       filter isHandleSubmit (trace_of fired)
       = [HandleSubmit []
            (prompt ++ [10; 10]%N ++ Js.lit "Context: " ++ [34%N] ++ text
               ++ [34%N])]
       /\ hd_error (trace_of fired)
          = Some (HandleSubmit [] (withContext prompt text))
       /\ (submit = Resolves tt ->
           inputValue (state_of fired) = []
           /\ contextText (state_of fired) = None
           /\ selectedFiles (state_of fired) = selectedFiles st1
           /\ pastedArtifactItems (state_of fired) = pastedArtifactItems st1).
Proof.
  intros P. destruct prompt as [|p ps]; [congruence|]. cbv zeta.
  split; [reflexivity|]. split; [reflexivity|]. split; [reflexivity|].
  intros ctx st1 submit. unfold runTimer, bind, await, when.
  destruct submit as [[]|e], (scrollToBottom ctx); simpl;
    (split; [reflexivity|]); (split; [reflexivity|]);
    intros E; try discriminate E; auto.
Qed.

Lemma followUp_autoSubmit_path_witness :
  let ctx := mkCtx true (Some (Js.lit "s1")) [] true None in
  let f := mkFile (Js.lit "a.txt") 3 7 0 in
  let st := mkState [f] [] None false None [] false false None None false
              (Some (Js.lit "s1")) true in
  let scheduled := handleFollowUp (Js.lit "selected") (Some (Js.lit "Explain"))
                     true st in
  let fired := runTimer ctx (AutoSubmit (Js.lit "Explain") (Js.lit "selected"))
                 (Resolves tt) (state_of scheduled) in
  isSubmittingEnabled ctx (state_of scheduled) = false
  /\ trace_of scheduled
     = [SetTimeout (AutoSubmit (Js.lit "Explain") (Js.lit "selected")) 50]
  /\ hd_error (trace_of fired)
     = Some (HandleSubmit []
               (withContext (Js.lit "Explain") (Js.lit "selected")))
  /\ inputValue (state_of fired) = []
  /\ contextText (state_of fired) = None
  /\ selectedFiles (state_of fired) = [f].
Proof.
  intros ctx f st scheduled fired.
  assert (P : Js.lit "Explain" <> []) by (vm_compute; discriminate).
  destruct (followUp_autoSubmit_path (Js.lit "selected") (Js.lit "Explain") st P)
    as (T & _ & _ & F).
  destruct (F ctx (state_of scheduled) (Resolves tt)) as (_ & H & C).
  destruct (C eq_refl) as (I & X & S & _).
  split; [reflexivity|]. split; [exact T|]. split; [exact H|].
  split; [exact I|]. split; [exact X | exact S].
Defined.

(** ** Further properties of the Selected File Set *)

Lemma removeAt_from (A : Type) (l : list A) (start index : nat) :
  List.map snd
    (filter (fun p => negb (Nat.eqb (fst p) index))
       (combine (seq start (List.length l)) l))
  = if (index <? start)%nat then l
    else firstn (index - start) l ++ skipn (S (index - start)) l.
Proof.
  revert start. induction l as [|x l IH]; intros start.
  - simpl. destruct (index <? start)%nat; [reflexivity|].
    rewrite firstn_nil. reflexivity.
  - cbn [List.length seq combine filter fst].
    destruct (Nat.eqb start index) eqn:E; cbn [negb].
    + apply Nat.eqb_eq in E. subst. rewrite IH.
      replace (index <? S index)%nat with true
        by (symmetry; apply Nat.ltb_lt; lia).
      rewrite Nat.ltb_irrefl, Nat.sub_diag. reflexivity.
    + apply Nat.eqb_neq in E. cbn [List.map snd]. rewrite IH.
      destruct (index <? start)%nat eqn:L.
      * apply Nat.ltb_lt in L.
        replace (index <? S start)%nat with true
          by (symmetry; apply Nat.ltb_lt; lia).
        reflexivity.
      * apply Nat.ltb_ge in L.
        replace (index <? S start)%nat with false
          by (symmetry; apply Nat.ltb_ge; lia).
        replace (index - start)%nat with (S (index - S start)) by lia.
        reflexivity.
Qed.

Lemma handleRemoveFile_run index st :
  handleRemoveFile index st =
    (Done tt,
     mkState
       (firstn index (selectedFiles st) ++ skipn (S index) (selectedFiles st))
       (pastedArtifactItems st) (pendingPasteContent st)
       (showArtifactForm st) (contextText st) (inputValue st)
       (showPromptsCommand st) (showVariableDialog st)
       (pendingPromptGroup st) (sttError st) (isRecording st)
       (prevSessionIdRef st) (prevIsRespondingRef st),
     []).
Proof.
  unfold handleRemoveFile, setSelectedFiles, modify.
  rewrite removeAt_from. simpl. rewrite Nat.sub_0_r. reflexivity.
Qed.

(** X1. [handleRemoveFile] takes out exactly the file at the given position:
    the files before it and the files after it stay, in their order, and
    nothing else of the state is touched; a position past the end removes
    nothing. *)
Theorem handleRemoveFile_removes_position index st :
  handleRemoveFile index st =
    (Done tt,
     mkState
       (firstn index (selectedFiles st) ++ skipn (S index) (selectedFiles st))
       (pastedArtifactItems st) (pendingPasteContent st)
       (showArtifactForm st) (contextText st) (inputValue st)
       (showPromptsCommand st) (showVariableDialog st)
       (pendingPromptGroup st) (sttError st) (isRecording st)
       (prevSessionIdRef st) (prevIsRespondingRef st),
     [])
  /\ ((List.length (selectedFiles st) <= index)%nat ->
      selectedFiles (state_of (handleRemoveFile index st)) = selectedFiles st).
Proof.
  split; [apply handleRemoveFile_run|].
  intros L. rewrite handleRemoveFile_run.
  unfold state_of. cbn [fst snd selectedFiles].
  rewrite firstn_all2 by exact L. rewrite skipn_all2 by lia.
  apply app_nil_r.
Qed.

Lemma handleRemoveFile_removes_position_witness :
  let f := mkFile (Js.lit "a.txt") 3 7 0 in
  let g := mkFile (Js.lit "b.txt") 4 8 1 in
  let h := mkFile (Js.lit "c.txt") 5 9 2 in
  let st := mkState [f; g; h] [] None false None [] false false None None
              false None false in
  selectedFiles (state_of (handleRemoveFile 1 st)) = [f; h]
  /\ selectedFiles (state_of (handleRemoveFile 3 st)) = [f; g; h].
Proof.
  intros f g h st. split.
  - rewrite (proj1 (handleRemoveFile_removes_position 1 st)). reflexivity.
  - apply (proj2 (handleRemoveFile_removes_position 3 st)). simpl. lia.
Defined.

Lemma sameFile_refl (f : File) : sameFile f f = true.
Proof.
  unfold sameFile. rewrite Js_eqb_refl, !Z.eqb_refl. reflexivity.
Qed.

Lemma filterNewFiles_covers selected files f :
  In f files ->
  existsb (fun e => sameFile e f) (selected ++ filterNewFiles selected files)
  = true.
Proof.
  intros I. rewrite existsb_app.
  destruct (existsb (fun e => sameFile e f) selected) eqn:E; [reflexivity|].
  simpl. apply existsb_exists. exists f. split; [|apply sameFile_refl].
  unfold filterNewFiles. apply filter_In. split; [exact I|].
  rewrite E. reflexivity.
Qed.

Lemma filterNewFiles_again selected files :
  filterNewFiles (selected ++ filterNewFiles selected files) files = [].
Proof.
  unfold filterNewFiles at 1.
  assert (H : forall l, (forall f, In f l -> In f files) ->
            filter (fun newFile =>
                      negb (existsb (fun e => sameFile e newFile)
                              (selected ++ filterNewFiles selected files))) l
            = []).
  { induction l as [|x l IH]; intros S; [reflexivity|]. simpl.
    rewrite filterNewFiles_covers by (apply S; left; reflexivity).
    simpl. apply IH. intros f I. apply S. right. exact I. }
  apply H. auto.
Qed.

(** X2. A drop while not responding keeps the files that were selected, in
    front and in their order, adds only files of the batch, and leaves every
    dropped file represented: afterwards some selected file has its (name,
    size, last-modified) key. *)
Theorem handleFilesDropped_merges ctx st files :
  isResponding ctx = false ->
  let selected' :=
    selectedFiles (state_of (handleFilesDropped ctx st files st)) in
  firstn (List.length (selectedFiles st)) selected' = selectedFiles st
  /\ (forall f, In f (skipn (List.length (selectedFiles st)) selected') ->
        In f files)
  /\ (forall f, In f files ->
        exists g, In g selected' /\ sameFile g f = true).
Proof.
  intros R. cbv zeta. rewrite handleFilesDropped_files, R.
  split; [|split].
  - rewrite firstn_app, Nat.sub_diag, firstn_all. simpl. apply app_nil_r.
  - intros f I. rewrite skipn_app, Nat.sub_diag, skipn_all in I. simpl in I.
    apply filterNewFiles_in in I. tauto.
  - intros f I. apply existsb_exists.
    apply (filterNewFiles_covers (selectedFiles st) files f I).
Qed.

Lemma handleFilesDropped_merges_witness :
  let ctx := mkCtx false (Some (Js.lit "s1")) [] true None in
  let f := mkFile (Js.lit "a.txt") 3 7 0 in
  let f' := mkFile (Js.lit "a.txt") 3 7 5 in
  let g := mkFile (Js.lit "b.txt") 4 8 1 in
  let st := mkState [f] [] None false None [] false false None None
              false None false in
  selectedFiles (state_of (handleFilesDropped ctx st [g; f'] st)) = [f; g]
  /\ firstn 1 (selectedFiles (state_of (handleFilesDropped ctx st [g; f'] st)))
     = [f].
Proof.
  intros ctx f f' g st. split; [reflexivity|].
  exact (proj1 (handleFilesDropped_merges ctx st [g; f'] eq_refl)).
Defined.

(** X3. Bringing the same batch again changes nothing: after a pick, a paste
    or a drop, a second arrival of that batch through any of the three paths
    leaves the Selected File Set as it is. *)
Theorem second_arrival_adds_nothing isLargeText ctx st files text :
  let merged := selectedFiles st ++ filterNewFiles (selectedFiles st) files in
  forall st1, selectedFiles st1 = merged ->
    selectedFiles (state_of (handleFileChange st1 (Some files) st1)) = merged
    /\ selectedFiles (state_of (handleFilesDropped ctx st1 files st1)) = merged
    /\ selectedFiles
         (state_of (handlePaste isLargeText ctx st1
                      (Some (mkClipboard files text)) st1)) = merged.
Proof.
  cbv zeta. intros st1 E. split; [|split].
  - rewrite handleFileChange_files, E, filterNewFiles_again. apply app_nil_r.
  - rewrite handleFilesDropped_files, E, filterNewFiles_again.
    destruct (isResponding ctx); [reflexivity | apply app_nil_r].
  - unfold handlePaste, when, bind.
    destruct (isResponding ctx); [exact E|]. cbn [clip_files clip_text].
    destruct (0 <? List.length files)%nat.
    + rewrite E, filterNewFiles_again. exact E.
    + destruct (Js.truthy text && isLargeText text); exact E.
Qed.

Lemma second_arrival_adds_nothing_witness :
  let ctx := mkCtx false (Some (Js.lit "s1")) [] true None in
  let f := mkFile (Js.lit "a.txt") 3 7 0 in
  let g := mkFile (Js.lit "b.txt") 4 8 1 in
  let st := initial ctx in
  let st1 := state_of (handleFilesDropped ctx st [f; g] st) in
  selectedFiles st1 = [f; g]
  /\ selectedFiles (state_of (handleFilesDropped ctx st1 [f; g] st1)) = [f; g].
Proof.
  intros ctx f g st st1. split; [reflexivity|].
  exact (proj1 (proj2 (second_arrival_adds_nothing (fun _ => false) ctx st
                         [f; g] [] st1 eq_refl))).
Defined.

Lemma in_remove_position (A : Type) (l : list A) (i : nat) (g : A) :
  In g (firstn i l ++ skipn (S i) l) -> In g l.
Proof.
  revert i. induction l as [|x l IH]; intros i H.
  - rewrite firstn_nil in H. exact H.
  - destruct i as [|i]; [right; exact H|].
    cbn [firstn skipn app] in H. destruct H as [H | H]; [left; exact H|].
    right. apply (IH i). exact H.
Qed.

Lemma atMostOneInstance_remove (l : list File) (i : nat) :
  atMostOneInstance l ->
  atMostOneInstance (firstn i l ++ skipn (S i) l).
Proof.
  revert i. induction l as [|x l IH]; intros i H.
  - rewrite firstn_nil. exact I.
  - destruct H as [Hx Hl]. destruct i as [|i]; [exact Hl|].
    cbn [firstn skipn app atMostOneInstance]. split; [|apply IH; exact Hl].
    intros g Hg. apply Hx. apply (in_remove_position _ l i). exact Hg.
Qed.

(** How one event can change the Selected File Set: not at all, by merging
    its batch, by removing one position, or by clearing it. *)
Lemma step_selectedFiles isLargeText detectVariables ctx st ev :
  let selected' := selectedFiles (step isLargeText detectVariables ctx st ev) in
  selected' = selectedFiles st
  \/ selected' = selectedFiles st
                 ++ filterNewFiles (selectedFiles st) (batchOf ev)
  \/ (exists index,
        selected' = firstn index (selectedFiles st)
                    ++ skipn (S index) (selectedFiles st))
  \/ selected' = [].
Proof.
  cbv zeta.
  destruct ev as [loc | | text prompt autoSubmit | t submit | | files
    | clipboardData
    | title fileType description upload refetch now1 now2 random36
    | | index | submit | files | value cursorPosition | promptText
    | command context | id' | filename' | processedPrompt | | | text | error
    | | recording | key shiftKey submit]; unfold step, dispatch.
  all: try (unfold sessionEffect, respondingEffect,
      handleFileSelect, handleCancelArtifactForm,
      handleInputChange, handlePromptSelect, handleChatCommand,
      handleRemovePastedArtifact, handleViewPastedArtifact,
      handleVariableSubmit, closeVariableDialog, handleTranscription,
      handleTranscriptionError, focusLater, when, bind, await, readRef;
      run_handler; auto; fail).
  - (* FollowUpQuestion *)
    unfold handleFollowUp, focusLater, bind.
    destruct prompt as [[|p ps]|], autoSubmit; cbn; auto.
  - (* TimerFires *)
    unfold runTimer, when, bind, await.
    destruct t, submit as [[]|e], (scrollToBottom ctx); cbn; auto.
  - (* FilesPicked *)
    destruct files as [files|].
    + right. left. apply handleFileChange_files.
    + left. reflexivity.
  - (* Pasted *)
    destruct clipboardData as [cb|].
    + destruct (isResponding ctx) eqn:R.
      * left. rewrite handlePaste_responding by exact R. reflexivity.
      * destruct (clip_files cb) as [|f fs] eqn:F.
        -- left. rewrite handlePaste_text by assumption.
           destruct (Js.truthy (clip_text cb) && isLargeText (clip_text cb));
             reflexivity.
        -- right. left. cbn [batchOf].
           apply handlePaste_files; [exact R | congruence].
    + left. unfold handlePaste. destruct (isResponding ctx); reflexivity.
  - (* SaveAsArtifact *)
    left. unfold handleSaveAsArtifact.
    destruct (pendingPasteContent st) as [[|c cs]|]; try reflexivity.
    unfold try_catch_finally, bind, when, await.
    destruct upload as [[| e | uri sid]|e]; try reflexivity.
    destruct refetch as [[]|e];
      destruct (Js.truthy_opt sid && negb (Js.opt_eqb sid (sessionId ctx)));
      reflexivity.
  - (* FileRemoved *)
    right. right. left. exists index.
    rewrite handleRemoveFile_run. reflexivity.
  - (* SendClicked *)
    destruct (isSubmittingEnabled ctx st) eqn:E.
    + rewrite (onSubmit_enabled _ _ _ _ E). destruct submit; cbn; auto.
    + rewrite (onSubmit_disabled _ _ _ _ E). auto.
  - (* FilesDropped *)
    rewrite handleFilesDropped_files. destruct (isResponding ctx); auto.
  - (* KeyPressed *)
    unfold onKeyDown, when, detached.
    destruct (Js.eqb key (Js.lit "Enter") && negb shiftKey); cbn [andb];
      [|auto].
    destruct (isSubmittingEnabled ctx st) eqn:E; [|auto].
    rewrite (onSubmit_enabled _ _ _ _ E). destruct submit; cbn; auto.
Qed.

(** X4. As long as no single batch brings two files with one key, the
    Selected File Set never holds two files with one (name, size,
    last-modified) key, through any run of events: picks, pastes, drops,
    removals, submits and all the others. *)
Theorem selection_stays_distinct isLargeText detectVariables evs st :
  atMostOneInstance (selectedFiles st) ->
  Forall (fun ce => atMostOneInstance (batchOf (snd ce))) evs ->
  atMostOneInstance
    (selectedFiles (runEvents isLargeText detectVariables evs st)).
Proof.
  revert st. induction evs as [|[ctx ev] evs IH]; intros st Hs Hb;
    [exact Hs|].
  inversion Hb as [|x l Hev Hevs]; subst. cbn [runEvents snd] in *.
  apply IH; [|exact Hevs].
  destruct (step_selectedFiles isLargeText detectVariables ctx st ev)
    as [E | [E | [[index E] | E]]]; rewrite E.
  - exact Hs.
  - apply merge_keeps_one_instance; assumption.
  - apply atMostOneInstance_remove. exact Hs.
  - exact I.
Qed.

Lemma selection_stays_distinct_witness :
  let ctx := mkCtx false (Some (Js.lit "s1")) [] true None in
  let f := mkFile (Js.lit "a.txt") 3 7 0 in
  let f' := mkFile (Js.lit "a.txt") 3 7 5 in
  let g := mkFile (Js.lit "b.txt") 4 8 1 in
  let h := mkFile (Js.lit "c.txt") 5 9 2 in
  let evs := [(ctx, FilesDropped [f; g]);
              (ctx, FilesPicked (Some [f'; h]));
              (ctx, FileRemoved 0);
              (ctx, Pasted (Some (mkClipboard [f'] [])))] in
  selectedFiles (runEvents (fun _ => false) (fun _ => []) evs (initial ctx))
  = [g; h; f']
  /\ atMostOneInstance
       (selectedFiles
          (runEvents (fun _ => false) (fun _ => []) evs (initial ctx))).
Proof.
  intros ctx f f' g h evs. split; [reflexivity|].
  apply selection_stays_distinct.
  - exact I.
  - repeat (apply Forall_cons;
            [cbn; repeat split; intros x Hx;
             repeat (destruct Hx as [<- | Hx]; [reflexivity|]); destruct Hx|]).
    apply Forall_nil.
Defined.

(** ** Dialogs and their payloads *)

Lemma handleSaveAsArtifact_dialog ctx rd st title fileType description
    upload refetch now1 now2 random36 :
  let run := handleSaveAsArtifact ctx rd title fileType description upload
               refetch now1 now2 random36 st in
  (pendingPasteContent (state_of run) = pendingPasteContent st
   /\ showArtifactForm (state_of run) = showArtifactForm st)
  \/ (pendingPasteContent (state_of run) = None
      /\ showArtifactForm (state_of run) = false).
Proof.
  cbv zeta. unfold handleSaveAsArtifact.
  destruct (pendingPasteContent rd) as [[|c cs]|]; try (left; split; reflexivity).
  right. unfold try_catch_finally, bind, when, await.
  destruct upload as [[| e | uri sid]|e]; try (split; reflexivity).
  destruct refetch as [[]|e];
    destruct (Js.truthy_opt sid && negb (Js.opt_eqb sid (sessionId ctx)));
    split; reflexivity.
Qed.

(** One event leaves the pending paste content and the dialog flag as they
    are, or clears both, or sets both. *)
Lemma step_artifact_dialog isLargeText detectVariables ctx st ev :
  let st' := step isLargeText detectVariables ctx st ev in
  (pendingPasteContent st' = pendingPasteContent st
   /\ showArtifactForm st' = showArtifactForm st)
  \/ (pendingPasteContent st' = None /\ showArtifactForm st' = false)
  \/ (exists text, pendingPasteContent st' = Some text
                   /\ showArtifactForm st' = true).
Proof.
  cbv zeta.
  destruct ev as [loc | | text prompt autoSubmit | t submit | | files
    | clipboardData
    | title fileType description upload refetch now1 now2 random36
    | | index | submit | files | value cursorPosition | promptText
    | command context | id' | filename' | processedPrompt | | | text | error
    | | recording | key shiftKey submit]; unfold step, dispatch.
  all: try (unfold sessionEffect, respondingEffect,
      handleFileSelect, handleCancelArtifactForm, handleRemoveFile,
      handleFilesDropped,
      handleInputChange, handlePromptSelect, handleChatCommand,
      handleRemovePastedArtifact, handleViewPastedArtifact,
      handleVariableSubmit, closeVariableDialog, handleTranscription,
      handleTranscriptionError, focusLater, when, bind, await, readRef;
      run_handler; auto; fail).
  - (* FollowUpQuestion *)
    unfold handleFollowUp, focusLater, bind.
    destruct prompt as [[|p ps]|], autoSubmit; cbn; auto.
  - (* TimerFires *)
    unfold runTimer, when, bind, await.
    destruct t, submit as [[]|e], (scrollToBottom ctx); cbn; auto.
  - (* FilesPicked *)
    unfold handleFileChange, focusLater, when, bind.
    destruct files as [files|]; [destruct (0 <? _)%nat|]; cbn; auto.
  - (* Pasted *)
    unfold handlePaste, when, bind.
    destruct (isResponding ctx); [auto|].
    destruct clipboardData as [cb|]; [|auto].
    destruct (0 <? List.length (clip_files cb))%nat.
    + destruct (0 <? _)%nat; cbn; auto.
    + destruct (Js.truthy (clip_text cb) && isLargeText (clip_text cb));
        cbn; [|auto].
      right. right. exists (clip_text cb). auto.
  - (* SaveAsArtifact *)
    destruct (handleSaveAsArtifact_dialog ctx st st title fileType description
                upload refetch now1 now2 random36) as [H | H]; auto.
  - (* SendClicked *)
    destruct (isSubmittingEnabled ctx st) eqn:E.
    + rewrite (onSubmit_enabled _ _ _ _ E). destruct submit; cbn; auto.
    + rewrite (onSubmit_disabled _ _ _ _ E). auto.
  - (* KeyPressed *)
    unfold onKeyDown, when, detached.
    destruct (Js.eqb key (Js.lit "Enter") && negb shiftKey); cbn [andb];
      [|auto].
    destruct (isSubmittingEnabled ctx st) eqn:E; [|auto].
    rewrite (onSubmit_enabled _ _ _ _ E). destruct submit; cbn; auto.
Qed.

(** X5. In every state the component can reach, the artifact dialog is open
    exactly when a pasted text is pending: paste, save and cancel always set
    the two together and no other handler touches either. *)
Theorem artifact_dialog_open_iff_pending isLargeText detectVariables st :
  reachable isLargeText detectVariables st ->
  (showArtifactForm st = true <-> pendingPasteContent st <> None).
Proof.
  induction 1 as [ctx | ctx st ev _ IH].
  - simpl. split; [discriminate | congruence].
  - destruct (step_artifact_dialog isLargeText detectVariables ctx st ev)
      as [[P S] | [[P S] | (text & P & S)]]; rewrite P, S.
    + exact IH.
    + split; [discriminate | congruence].
    + split; [discriminate | reflexivity].
Qed.

Lemma artifact_dialog_open_iff_pending_witness :
  let big := fun s : str => (5 <=? List.length s)%nat in
  let dv := fun _ : str => @nil str in
  let ctx := mkCtx false (Some (Js.lit "s1")) [] true None in
  let st := runEvents big dv
              [(ctx, Pasted (Some (mkClipboard [] (Js.lit "a long paste"))));
               (ctx, InputChanged (Js.lit "x") 1)] (initial ctx) in
  pendingPasteContent st = Some (Js.lit "a long paste")
  /\ (showArtifactForm st = true <-> pendingPasteContent st <> None).
Proof.
  intros big dv ctx st. split; [reflexivity|].
  apply (artifact_dialog_open_iff_pending big dv).
  apply reachable_step. apply reachable_step. apply reachable_initial.
Defined.

(** One event leaves the variable dialog and its prompt group as they are,
    or closes the dialog and drops the group, or opens it with a group. *)
Lemma step_variable_dialog isLargeText detectVariables ctx st ev :
  let st' := step isLargeText detectVariables ctx st ev in
  (pendingPromptGroup st' = pendingPromptGroup st
   /\ showVariableDialog st' = showVariableDialog st)
  \/ (pendingPromptGroup st' = None /\ showVariableDialog st' = false)
  \/ (exists group, pendingPromptGroup st' = Some group
                    /\ showVariableDialog st' = true).
Proof.
  cbv zeta.
  destruct ev as [loc | | text prompt autoSubmit | t submit | | files
    | clipboardData
    | title fileType description upload refetch now1 now2 random36
    | | index | submit | files | value cursorPosition | promptText
    | command context | id' | filename' | processedPrompt | | | text | error
    | | recording | key shiftKey submit]; unfold step, dispatch.
  all: try (unfold respondingEffect,
      handleFileSelect, handleCancelArtifactForm, handleRemoveFile,
      handleFilesDropped,
      handleInputChange, handlePromptSelect, handleChatCommand,
      handleRemovePastedArtifact, handleViewPastedArtifact,
      handleVariableSubmit, closeVariableDialog, handleTranscription,
      handleTranscriptionError, focusLater, when, bind, await, readRef;
      run_handler; auto; fail).
  - (* SessionEffectRuns *)
    destruct (hasRouterPrompt loc) eqn:R.
    + destruct loc as [[[[|c p]|] g n]|]; simpl in R; try discriminate.
      unfold sessionEffect, bind, focusLater.
      destruct (0 <? List.length (detectVariables (c :: p)))%nat; cbn; eauto.
    + rewrite (sessionEffect_plain detectVariables ctx loc st R). cbn. auto.
  - (* FollowUpQuestion *)
    unfold handleFollowUp, focusLater, bind.
    destruct prompt as [[|p ps]|], autoSubmit; cbn; auto.
  - (* TimerFires *)
    unfold runTimer, when, bind, await.
    destruct t, submit as [[]|e], (scrollToBottom ctx); cbn; auto.
  - (* FilesPicked *)
    unfold handleFileChange, focusLater, when, bind.
    destruct files as [files|]; [destruct (0 <? _)%nat|]; cbn; auto.
  - (* Pasted *)
    unfold handlePaste, when, bind.
    destruct (isResponding ctx); [auto|].
    destruct clipboardData as [cb|]; [|auto].
    destruct (0 <? List.length (clip_files cb))%nat.
    + destruct (0 <? _)%nat; cbn; auto.
    + destruct (Js.truthy (clip_text cb) && isLargeText (clip_text cb));
        cbn; auto.
  - (* SaveAsArtifact *)
    left. unfold handleSaveAsArtifact.
    destruct (pendingPasteContent st) as [[|c cs]|]; try (split; reflexivity).
    unfold try_catch_finally, bind, when, await.
    destruct upload as [[| e | uri sid]|e]; try (split; reflexivity).
    destruct refetch as [[]|e];
      destruct (Js.truthy_opt sid && negb (Js.opt_eqb sid (sessionId ctx)));
      split; reflexivity.
  - (* SendClicked *)
    destruct (isSubmittingEnabled ctx st) eqn:E.
    + rewrite (onSubmit_enabled _ _ _ _ E). destruct submit; cbn; auto.
    + rewrite (onSubmit_disabled _ _ _ _ E). auto.
  - (* KeyPressed *)
    unfold onKeyDown, when, detached.
    destruct (Js.eqb key (Js.lit "Enter") && negb shiftKey); cbn [andb];
      [|auto].
    destruct (isSubmittingEnabled ctx st) eqn:E; [|auto].
    rewrite (onSubmit_enabled _ _ _ _ E). destruct submit; cbn; auto.
Qed.

(** X6. In every state the component can reach, the variable dialog is
    flagged open exactly when a prompt group is pending, so the dialog is
    never shown without a group to fill in. *)
Theorem variable_dialog_open_iff_group isLargeText detectVariables st :
  reachable isLargeText detectVariables st ->
  (showVariableDialog st = true <-> pendingPromptGroup st <> None).
Proof.
  induction 1 as [ctx | ctx st ev _ IH].
  - simpl. split; [discriminate | congruence].
  - destruct (step_variable_dialog isLargeText detectVariables ctx st ev)
      as [[P S] | [[P S] | (group & P & S)]]; rewrite P, S.
    + exact IH.
    + split; [discriminate | congruence].
    + split; [discriminate | reflexivity].
Qed.

Lemma variable_dialog_open_iff_group_witness :
  let big := fun s : str => (5 <=? List.length s)%nat in
  let dv := fun s : str => if Js.includes s 123 then [Js.lit "x"] else [] in
  let ctx := mkCtx false (Some (Js.lit "s1")) [] true None in
  let loc := Some (mkLoc (Some (Js.lit "Summarise {{x}}"))
                     (Some (Js.lit "g1")) (Some (Js.lit "Summary"))) in
  let st := step big dv ctx (initial ctx) (SessionEffectRuns loc) in
  showVariableDialog st = true
  /\ (showVariableDialog st = true <-> pendingPromptGroup st <> None).
Proof.
  intros big dv ctx loc st. split; [reflexivity|].
  apply (variable_dialog_open_iff_group big dv).
  apply reachable_step. apply reachable_initial.
Defined.

(** ** Calls into the Session context *)

(** X7. Among all the events of the component, [handleSubmit] is called
    exactly on a click on Send or an unshifted Enter while the submit guard
    holds, and on the auto-submit callback; no other handler ever submits. *)
Theorem handleSubmit_called_only_on isLargeText detectVariables ctx st ev :
  existsb isHandleSubmit
    (trace_of (dispatch isLargeText detectVariables ctx st ev st)) = true
  <-> submitsOn ctx st ev.
Proof.
  destruct ev as [loc | | text prompt autoSubmit | t submit | | files
    | clipboardData
    | title fileType description upload refetch now1 now2 random36
    | | index | submit | files | value cursorPosition | promptText
    | command context | id' | filename' | processedPrompt | | | text | error
    | | recording | key shiftKey submit]; unfold dispatch, submitsOn.
  all: try (unfold respondingEffect,
      handleFileSelect, handleCancelArtifactForm, handleRemoveFile,
      handleFilesDropped,
      handleInputChange, handlePromptSelect, handleChatCommand,
      handleRemovePastedArtifact, handleViewPastedArtifact,
      handleVariableSubmit, closeVariableDialog, handleTranscription,
      handleTranscriptionError, focusLater, when, bind, await, readRef;
      run_handler; (split; [discriminate | tauto]); fail).
  - (* SessionEffectRuns *)
    destruct (hasRouterPrompt loc) eqn:R.
    + destruct loc as [[[[|c p]|] g n]|]; simpl in R; try discriminate.
      unfold sessionEffect, bind, focusLater.
      destruct (0 <? List.length (detectVariables (c :: p)))%nat; cbn;
        (split; [discriminate | tauto]).
    + rewrite (sessionEffect_plain detectVariables ctx loc st R). cbn.
      split; [discriminate | tauto].
  - (* FollowUpQuestion *)
    unfold handleFollowUp, focusLater, bind.
    destruct prompt as [[|p ps]|], autoSubmit; cbn;
      (split; [discriminate | tauto]).
  - (* TimerFires *)
    unfold runTimer, when, bind, await.
    destruct t, submit as [[]|e], (scrollToBottom ctx); cbn;
      try (split; [discriminate | tauto]); tauto.
  - (* FilesPicked *)
    unfold handleFileChange, focusLater, when, bind.
    destruct files as [files|]; [destruct (0 <? _)%nat|]; cbn;
      (split; [discriminate | tauto]).
  - (* Pasted *)
    unfold handlePaste, when, bind.
    destruct (isResponding ctx); [cbn; split; [discriminate | tauto]|].
    destruct clipboardData as [cb|]; [|cbn; split; [discriminate | tauto]].
    destruct (0 <? List.length (clip_files cb))%nat.
    + destruct (0 <? _)%nat; cbn; (split; [discriminate | tauto]).
    + destruct (Js.truthy (clip_text cb) && isLargeText (clip_text cb));
        cbn; (split; [discriminate | tauto]).
  - (* SaveAsArtifact *)
    unfold handleSaveAsArtifact.
    destruct (pendingPasteContent st) as [[|c cs]|];
      try (cbn; split; [discriminate | tauto]).
    unfold try_catch_finally, bind, when, await.
    destruct upload as [[| e | uri sid]|e];
      try (cbn; split; [discriminate | tauto]).
    destruct refetch as [[]|e];
      destruct (Js.truthy_opt sid && negb (Js.opt_eqb sid (sessionId ctx)));
      cbn; (split; [discriminate | tauto]).
  - (* SendClicked *)
    rewrite <- isSubmittingEnabled_guard.
    destruct (isSubmittingEnabled ctx st) eqn:E.
    + rewrite (onSubmit_enabled _ _ _ _ E).
      destruct submit; cbn; tauto.
    + rewrite (onSubmit_disabled _ _ _ _ E). cbn.
      split; discriminate.
  - (* KeyPressed *)
    rewrite <- isSubmittingEnabled_guard, <- Js_eqb_eq.
    unfold onKeyDown, when, detached.
    destruct (Js.eqb key (Js.lit "Enter")), shiftKey; cbn [andb negb];
      try (cbn; split; [discriminate | intros (A & B & C); discriminate]).
    destruct (isSubmittingEnabled ctx st) eqn:E.
    + rewrite (onSubmit_enabled _ _ _ _ E). destruct submit; cbn; tauto.
    + cbn. split; [discriminate | intros (A & B & C); discriminate].
Qed.

(** X8. A submit that is rejected clears nothing: when the call into the
    Session context throws, from [onSubmit] or from the auto-submit
    callback, the exception propagates, the state (draft, files, badges,
    context) is as before the call, and no scroll is requested. *)
Theorem rejected_submit_clears_nothing ctx rd st e prompt text :
  submitGuard ctx rd ->
  onSubmit ctx rd (Rejects e) st
  = (Raised e, st,
     [PreventDefault; HandleSubmit (selectedFiles rd) (composedMessage rd)])
  /\ runTimer ctx (AutoSubmit prompt text) (Rejects e) st
     = (Raised e, st, [HandleSubmit [] (withContext prompt text)]).
Proof.
  intros G. apply isSubmittingEnabled_guard in G.
  rewrite (onSubmit_enabled _ _ _ _ G). split; reflexivity.
Qed.

Lemma rejected_submit_clears_nothing_witness :
  let ctx := mkCtx false (Some (Js.lit "s1")) [] true None in
  let st := mkState [mkFile (Js.lit "a.txt") 3 7 0] [] None false
              (Some (Js.lit "quoted")) (Js.lit "hello") false false None None
              false None false in
  state_of (onSubmit ctx st (Rejects OtherValue) st) = st
  /\ res_of (onSubmit ctx st (Rejects OtherValue) st) = Raised OtherValue.
Proof.
  intros ctx st.
  assert (G : submitGuard ctx st).
  { split; [reflexivity|]. left. vm_compute. discriminate. }
  rewrite (proj1 (rejected_submit_clears_nothing ctx st st OtherValue [] [] G)).
  split; reflexivity.
Defined.

(** X9. On a key press the text area starts a submit only for an unshifted
    Enter while the submit guard holds; the submit then changes the state
    and makes the calls a click on Send does. The key handler itself never
    throws, also when the submit is rejected, since it does not wait for
    it. Any other key press, a shifted Enter, or an Enter while the guard is
    false does nothing at all, not even [preventDefault]. *)
Theorem onKeyDown_submits_on_enter ctx rd key shiftKey submit st :
  res_of (onKeyDown ctx rd key shiftKey submit st) = Done tt
  /\ (key = Js.lit "Enter" -> shiftKey = false -> submitGuard ctx rd ->
      state_of (onKeyDown ctx rd key shiftKey submit st)
      = state_of (onSubmit ctx rd submit st)
      /\ trace_of (onKeyDown ctx rd key shiftKey submit st)
         = trace_of (onSubmit ctx rd submit st))
  /\ (key <> Js.lit "Enter" \/ shiftKey = true \/ ~ submitGuard ctx rd ->
      onKeyDown ctx rd key shiftKey submit st = (Done tt, st, [])).
Proof.
  unfold onKeyDown, when, detached. split; [|split].
  - destruct (Js.eqb key (Js.lit "Enter") && negb shiftKey
              && isSubmittingEnabled ctx rd); [|reflexivity].
    destruct (onSubmit ctx rd submit st) as [[r s'] t]. reflexivity.
  - intros -> -> G. apply isSubmittingEnabled_guard in G.
    rewrite Js_eqb_refl, G. cbn [andb negb].
    destruct (onSubmit ctx rd submit st) as [[r s'] t]. split; reflexivity.
  - intros [K | [S | G]].
    + destruct (Js.eqb key (Js.lit "Enter")) eqn:E; [|reflexivity].
      apply Js_eqb_eq in E. contradiction.
    + rewrite S, andb_false_r. reflexivity.
    + destruct (isSubmittingEnabled ctx rd) eqn:E.
      * apply isSubmittingEnabled_guard in E. contradiction.
      * rewrite andb_false_r. reflexivity.
Qed.

Lemma onKeyDown_submits_on_enter_witness :
  let ctx := mkCtx false (Some (Js.lit "s1")) [] true None in
  let st := mkState [] [] None false None (Js.lit "hello") false false None
              None false None false in
  onKeyDown ctx st (Js.lit "Enter") true (Resolves tt) st = (Done tt, st, [])
  /\ state_of (onKeyDown ctx st (Js.lit "Enter") false (Resolves tt) st)
     = state_of (onSubmit ctx st (Resolves tt) st)
  /\ trace_of (onKeyDown ctx st (Js.lit "Enter") false (Rejects OtherValue) st)
     = [PreventDefault; HandleSubmit [] (Js.lit "hello")]
  /\ res_of (onKeyDown ctx st (Js.lit "Enter") false (Rejects OtherValue) st)
     = Done tt.
Proof.
  intros ctx st.
  assert (G : submitGuard ctx st).
  { split; [reflexivity|]. left. vm_compute. discriminate. }
  split; [|split; [|split]].
  - apply (proj2 (proj2 (onKeyDown_submits_on_enter ctx st (Js.lit "Enter")
                           true (Resolves tt) st))).
    right. left. reflexivity.
  - apply (proj1 (proj2 (onKeyDown_submits_on_enter ctx st (Js.lit "Enter")
                           false (Resolves tt) st)) eq_refl eq_refl G).
  - rewrite (proj2 (proj1 (proj2 (onKeyDown_submits_on_enter ctx st
                                    (Js.lit "Enter") false
                                    (Rejects OtherValue) st))
                      eq_refl eq_refl G)).
    reflexivity.
  - apply (proj1 (onKeyDown_submits_on_enter ctx st (Js.lit "Enter") false
                    (Rejects OtherValue) st)).
Defined.

(** ** Further properties of saving pasted content *)

(** X10. Without pending paste content (null, or the empty string)
    [handleSaveAsArtifact] returns at once: nothing is uploaded, no
    notification is shown and the state is as it was. *)
Theorem handleSaveAsArtifact_without_payload ctx rd st title fileType
    description upload refetch now1 now2 random36 :
  pendingPasteContent rd = None \/ pendingPasteContent rd = Some [] ->
  handleSaveAsArtifact ctx rd title fileType description upload refetch
    now1 now2 random36 st = (Done tt, st, []).
Proof.
  intros [P | P]; unfold handleSaveAsArtifact; rewrite P; reflexivity.
Qed.

Lemma handleSaveAsArtifact_without_payload_witness :
  let ctx := mkCtx false (Some (Js.lit "s1")) [] true None in
  let st := initial ctx in
  handleSaveAsArtifact ctx st (Js.lit "notes.txt") (Js.lit "auto") None
    (Resolves (UploadOk (Js.lit "artifact://1") None)) (Resolves tt) 1 2
    (Js.lit "0.k3j9x2m1") st = (Done tt, st, []).
Proof.
  intros ctx st. apply handleSaveAsArtifact_without_payload.
  left. reflexivity.
Defined.



(** X12. Dismissing the artifact dialog undoes a paste: from a state with
    nothing pending and the dialog closed, a text paste followed by Cancel
    gives back the state before the paste, whatever the size of the text. *)
Theorem paste_then_cancel_restores isLargeText ctx st cb :
  isResponding ctx = false -> clip_files cb = [] ->
  pendingPasteContent st = None -> showArtifactForm st = false ->
  state_of (handleCancelArtifactForm
              (state_of (handlePaste isLargeText ctx st (Some cb) st)))
  = st.
Proof.
  intros R F P S. rewrite handlePaste_text by assumption.
  destruct st; simpl in P, S; subst.
  destruct (Js.truthy (clip_text cb) && isLargeText (clip_text cb));
    reflexivity.
Qed.

Lemma paste_then_cancel_restores_witness :
  let big := fun s : str => (5 <=? List.length s)%nat in
  let ctx := mkCtx false (Some (Js.lit "s1")) [] true None in
  let st := mkState [] [] None false None (Js.lit "draft") false false None
              None false None false in
  let cb := mkClipboard [] (Js.lit "a long paste") in
  showArtifactForm (state_of (handlePaste big ctx st (Some cb) st)) = true
  /\ state_of (handleCancelArtifactForm
                 (state_of (handlePaste big ctx st (Some cb) st))) = st.
Proof.
  intros big ctx st cb. split; [reflexivity|].
  apply paste_then_cancel_restores; reflexivity.
Defined.

(** ** The draft and the submit guard *)

Lemma trimStart_nil_iff (s : str) :
  Js.trimStart s = [] <-> hasVisibleText s = false.
Proof.
  unfold hasVisibleText. induction s as [|c s IH]; simpl; [tauto|].
  destruct (Js.isWhiteSpace c); simpl; [exact IH|].
  split; discriminate.
Qed.

Lemma hasVisibleText_rev (s : str) :
  hasVisibleText (rev s) = hasVisibleText s.
Proof.
  unfold hasVisibleText.
  destruct (existsb _ s) eqn:E.
  - apply existsb_exists in E. destruct E as (x & I & V).
    apply existsb_exists. exists x. split; [apply in_rev in I|]; assumption.
  - destruct (existsb _ (rev s)) eqn:F; [|reflexivity].
    apply existsb_exists in F. destruct F as (x & I & V).
    apply in_rev in I.
    assert (existsb (fun c => negb (Js.isWhiteSpace c)) s = true)
      by (apply existsb_exists; eauto).
    congruence.
Qed.

Lemma hasVisibleText_trimStart (s : str) :
  hasVisibleText (Js.trimStart s) = hasVisibleText s.
Proof.
  unfold hasVisibleText. induction s as [|c s IH]; simpl; [reflexivity|].
  destruct (Js.isWhiteSpace c) eqn:W; simpl; [exact IH|].
  rewrite W. reflexivity.
Qed.

Lemma trim_nil_iff (s : str) : Js.trim s = [] <-> hasVisibleText s = false.
Proof.
  unfold Js.trim, Js.trimEnd.
  rewrite <- (hasVisibleText_trimStart s), <- hasVisibleText_rev,
    <- trimStart_nil_iff.
  split.
  - intros E. apply (f_equal (@rev N)) in E. rewrite rev_involutive in E.
    exact E.
  - intros E. rewrite E. reflexivity.
Qed.

(** X13. Submitting is enabled exactly when the controller is not
    responding and the draft holds at least one code unit that is not white
    space, or a file is selected; with a draft of spaces, tabs and line
    breaks alone and no file, [onSubmit] calls nothing but
    [preventDefault] and leaves the state as it is. *)
Theorem blank_draft_cannot_be_sent ctx rd :
  (isSubmittingEnabled ctx rd = true
   <-> isResponding ctx = false
       /\ (hasVisibleText (inputValue rd) = true \/ selectedFiles rd <> []))
  /\ (hasVisibleText (inputValue rd) = false -> selectedFiles rd = [] ->
      forall submit st,
        onSubmit ctx rd submit st = (Done tt, st, [PreventDefault])).
Proof.
  assert (E : Js.trim (inputValue rd) <> []
              <-> hasVisibleText (inputValue rd) = true).
  { rewrite trim_nil_iff. destruct (hasVisibleText (inputValue rd));
      split; congruence. }
  assert (G : isSubmittingEnabled ctx rd = true
              <-> isResponding ctx = false
                  /\ (hasVisibleText (inputValue rd) = true
                      \/ selectedFiles rd <> [])).
  { rewrite isSubmittingEnabled_guard. unfold submitGuard. rewrite E. tauto. }
  split; [exact G|].
  intros V F submit st. apply onSubmit_disabled.
  destruct (isSubmittingEnabled ctx rd) eqn:D; [|reflexivity].
  destruct (proj1 G eq_refl) as [_ [X | X]]; congruence.
Qed.

Lemma blank_draft_cannot_be_sent_witness :
  let ctx := mkCtx false (Some (Js.lit "s1")) [] true None in
  let st := mkState [] [] None false None [32; 9; 10; 32]%N false false None
              None false None false in
  isSubmittingEnabled ctx st = false
  /\ onSubmit ctx st (Resolves tt) st = (Done tt, st, [PreventDefault]).
Proof.
  intros ctx st. split; [reflexivity|].
  apply (proj2 (blank_draft_cannot_be_sent ctx st)); reflexivity.
Defined.

(** X14. Speech transcriptions are appended to the draft with one space
    between them and no space in front: starting from an empty draft, a run
    of non-empty transcriptions leaves the draft as the transcribed texts
    joined by single spaces. *)
Theorem transcriptions_are_joined isLargeText detectVariables ctx texts st :
  inputValue st = [] ->
  Forall (fun t => t <> []) texts ->
  inputValue
    (runEvents isLargeText detectVariables
       (List.map (fun t => (ctx, Transcribed t)) texts) st)
  = joinWords texts.
Proof.
  intros E F.
  assert (G : forall ts st, inputValue st <> [] ->
            inputValue
              (runEvents isLargeText detectVariables
                 (List.map (fun t => (ctx, Transcribed t)) ts) st)
            = inputValue st ++ flat_map (fun x => Js.space :: x) ts).
  { induction ts as [|t ts IH]; intros st0 N; simpl.
    - symmetry. apply app_nil_r.
    - rewrite IH.
      + unfold step, dispatch, handleTranscription.
        destruct (inputValue st0) as [|c cs] eqn:V; [congruence|].
        cbn. rewrite <- app_assoc. reflexivity.
      + unfold step, dispatch, handleTranscription.
        destruct (inputValue st0) as [|c cs] eqn:V; [congruence|].
        cbn. discriminate. }
  destruct texts as [|t ts]; [exact E|].
  inversion F as [|x l Ht Hts]; subst. cbn [List.map runEvents joinWords].
  rewrite G.
  - unfold step, dispatch, handleTranscription. rewrite E. reflexivity.
  - unfold step, dispatch, handleTranscription. rewrite E. exact Ht.
Qed.

Lemma transcriptions_are_joined_witness :
  let ctx := mkCtx false (Some (Js.lit "s1")) [] true None in
  inputValue
    (runEvents (fun _ => false) (fun _ => [])
       [(ctx, Transcribed (Js.lit "hello"));
        (ctx, Transcribed (Js.lit "big"));
        (ctx, Transcribed (Js.lit "world"))] (initial ctx))
  = Js.lit "hello big world".
Proof.
  intros ctx.
  refine (transcriptions_are_joined (fun _ => false) (fun _ => []) ctx
            [Js.lit "hello"; Js.lit "big"; Js.lit "world"] (initial ctx)
            eq_refl _).
  repeat (apply Forall_cons; [vm_compute; discriminate|]). apply Forall_nil.
Defined.

(** X15. The text selected for a follow-up question rides on the next
    message: after a follow-up without auto-submit, a submit that passes the
    guard sends the trimmed draft followed by the selected text as quoted
    context, and sends the trimmed draft alone when the selected text is
    empty. *)
Theorem followUp_context_is_sent ctx st text prompt submit :
  let st1 := state_of (handleFollowUp text prompt false st) in
  submitGuard ctx st1 ->
  filter isHandleSubmit (trace_of (onSubmit ctx st1 submit st1))
  = [HandleSubmit (selectedFiles st)
       (match text with
        | [] => Js.trim (inputValue st1)
        | _ :: _ => withContext (Js.trim (inputValue st1)) text
        end)].
Proof.
  cbv zeta. intros G. apply isSubmittingEnabled_guard in G.
  rewrite (onSubmit_enabled _ _ _ _ G).
  assert (F : selectedFiles (state_of (handleFollowUp text prompt false st))
              = selectedFiles st
              /\ contextText (state_of (handleFollowUp text prompt false st))
                 = Some text).
  { unfold handleFollowUp, focusLater, bind.
    destruct prompt as [[|p ps]|]; split; reflexivity. }
  destruct F as [F C]. unfold composedMessage. rewrite F, C.
  destruct submit as [[]|e], (scrollToBottom ctx), text; reflexivity.
Qed.

Lemma followUp_context_is_sent_witness :
  let ctx := mkCtx false (Some (Js.lit "s1")) [] true None in
  let st := initial ctx in
  let st1 := state_of (handleFollowUp (Js.lit "selected")
                         (Some (Js.lit "Explain")) false st) in
  filter isHandleSubmit (trace_of (onSubmit ctx st1 (Resolves tt) st1))
  = [HandleSubmit [] (withContext (Js.lit "Explain") (Js.lit "selected"))].
Proof.
  intros ctx st st1.
  refine (followUp_context_is_sent ctx st (Js.lit "selected")
            (Some (Js.lit "Explain")) (Resolves tt) _).
  split; [reflexivity|]. left. vm_compute. discriminate.
Defined.

(** ** Effects keyed on the context *)

(** X16. The effect on [isResponding] asks for the focus exactly when the
    controller was responding at its previous run and is not responding
    now; it records the current flag, so that a second run under the same
    context asks for nothing. *)
Theorem respondingEffect_focuses_once ctx st :
  let run := respondingEffect ctx st in
  (trace_of run = [SetTimeout FocusInput 100]
   <-> prevIsRespondingRef st = true /\ isResponding ctx = false)
  /\ (trace_of run = []
      <-> ~ (prevIsRespondingRef st = true /\ isResponding ctx = false))
  /\ prevIsRespondingRef (state_of run) = isResponding ctx
  /\ trace_of (respondingEffect ctx (state_of run)) = [].
Proof.
  cbv zeta. unfold respondingEffect, bind, when, readRef, focusLater.
  destruct (prevIsRespondingRef st), (isResponding ctx); cbn;
    repeat split; try reflexivity; try discriminate;
    try (intros [A B]; discriminate); try (intros H; exfalso; apply H; auto);
    intuition discriminate.
Qed.

Lemma Js_opt_eqb_refl (a : option str) : Js.opt_eqb a a = true.
Proof. apply Js_opt_eqb_eq. reflexivity. Qed.

(** X17. A run of the session effect that finds no router prompt records
    the current session id and drops the follow-up context, whether or not
    the id changed; run again under the same session id it changes
    nothing, so one change of the id resets the input once. *)
Theorem sessionEffect_settles detectVariables ctx loc loc' st :
  hasRouterPrompt loc = false ->
  hasRouterPrompt loc' = false ->
  let st1 := state_of (sessionEffect detectVariables ctx loc st) in
  prevSessionIdRef st1 = sessionId ctx
  /\ contextText st1 = None
  /\ sessionEffect detectVariables ctx loc' st1 = (Done tt, st1, []).
Proof.
  intros R R'. cbv zeta.
  rewrite (sessionEffect_plain detectVariables ctx loc st R). cbv zeta.
  split; [reflexivity|]. split; [reflexivity|].
  rewrite (sessionEffect_plain detectVariables ctx loc' _ R'). cbv zeta.
  unfold state_of.
  cbn [fst snd prevSessionIdRef selectedFiles pastedArtifactItems
       pendingPasteContent showArtifactForm inputValue showPromptsCommand
       showVariableDialog pendingPromptGroup sttError isRecording
       prevIsRespondingRef].
  rewrite Js_opt_eqb_refl, andb_false_r. reflexivity.
Qed.

Lemma sessionEffect_settles_witness :
  let dv := fun _ : str => @nil str in
  let ctx := mkCtx false (Some (Js.lit "s2")) [] true None in
  let st := mkState [] [] None false (Some (Js.lit "quoted"))
              (Js.lit "draft") true false None None false
              (Some (Js.lit "s1")) false in
  let st1 := state_of (sessionEffect dv ctx None st) in
  inputValue st1 = [] /\ contextText st1 = None
  /\ sessionEffect dv ctx None st1 = (Done tt, st1, []).
Proof.
  intros dv ctx st st1.
  destruct (sessionEffect_settles dv ctx None None st eq_refl eq_refl)
    as (_ & C & S).
  split; [reflexivity|]. split; [exact C | exact S].
Defined.

(** ** Pasted-artifact badges *)

(** X18. Removing a badge by id removes every badge with that id and no
    other, keeps the order of the rest, and changes nothing when no badge
    has the id. *)
Theorem handleRemovePastedArtifact_by_id id' st :
  let items' := pastedArtifactItems (state_of (handleRemovePastedArtifact id' st)) in
  (forall item, In item items'
                <-> In item (pastedArtifactItems st) /\ id item <> id')
  /\ items' = filter (fun item => negb (Js.eqb (id item) id'))
                (pastedArtifactItems st)
  /\ ((forall item, In item (pastedArtifactItems st) -> id item <> id') ->
      items' = pastedArtifactItems st).
Proof.
  cbv zeta. unfold handleRemovePastedArtifact, setPastedArtifactItems, modify.
  unfold state_of. cbn [fst snd pastedArtifactItems].
  split; [|split].
  - intros item. rewrite filter_In, negb_true_iff.
    destruct (Js.eqb (id item) id') eqn:E.
    + apply Js_eqb_eq in E. split; [intros [_ H]; discriminate | tauto].
    + assert (id item <> id') by (intros H; apply Js_eqb_eq in H; congruence).
      tauto.
  - reflexivity.
  - intros H. induction (pastedArtifactItems st) as [|x l IH];
      [reflexivity|]. simpl.
    destruct (Js.eqb (id x) id') eqn:E.
    + apply Js_eqb_eq in E. exfalso. apply (H x); [left; reflexivity | exact E].
    + simpl. f_equal. apply IH. intros item I. apply H. right. exact I.
Qed.

Lemma handleRemovePastedArtifact_by_id_witness :
  let a := mkItem (Js.lit "p1") (Js.lit "u1") (Js.lit "a.txt") 1 in
  let b := mkItem (Js.lit "p2") (Js.lit "u2") (Js.lit "b.txt") 2 in
  let st := mkState [] [a; b] None false None [] false false None None
              false None false in
  pastedArtifactItems (state_of (handleRemovePastedArtifact (Js.lit "p3") st))
  = [a; b]
  /\ pastedArtifactItems (state_of (handleRemovePastedArtifact (Js.lit "p1") st))
     = [b].
Proof.
  intros a b st. split; [|reflexivity].
  apply (proj2 (proj2 (handleRemovePastedArtifact_by_id (Js.lit "p3") st))).
  intros item [<- | [<- | []]]; vm_compute; discriminate.
Defined.

(** ** Further properties of the slash command *)

Lemma firstn_exact (A : Type) (a b : list A) :
  firstn (List.length a) (a ++ b) = a.
Proof.
  rewrite firstn_app, Nat.sub_diag, firstn_all. simpl. apply app_nil_r.
Qed.

Lemma skipn_exact (A : Type) (a b : list A) :
  skipn (List.length a) (a ++ b) = b.
Proof.
  rewrite skipn_app, Nat.sub_diag, skipn_all. reflexivity.
Qed.

Lemma handlePromptSelect_token ctx rd st promptText n pre tok :
  selectionStart ctx = Some (Z.of_nat n) ->
  (n <= List.length (inputValue rd))%nat ->
  firstn n (inputValue rd) = pre ++ Js.slash :: tok ->
  ~ In Js.slash tok ->
  inputValue (state_of (handlePromptSelect ctx rd promptText st))
  = pre ++ promptText ++ skipn n (inputValue rd).
Proof.
  intros S L B T. rewrite handlePromptSelect_run, S. cbv zeta.
  unfold state_of. cbn [fst snd inputValue].
  rewrite (substring_prefix (inputValue rd) (Z.of_nat n))
    by (unfold Js.len; lia).
  rewrite Nat2Z.id, B.
  unfold Js.lastIndexOf. rewrite lastIndexOf_from_last by exact T.
  rewrite Z.add_0_l, substring_prefix
    by (unfold Js.len; rewrite length_app; lia).
  unfold Js.len. rewrite Nat2Z.id, firstn_exact.
  rewrite substring_from_suffix by exact L. reflexivity.
Qed.

(** X19. When the prompt popover hands over a prompt and no [/] precedes
    the cursor, the whole text in front of the cursor is replaced by the
    prompt; when the text area gives no cursor, or the cursor is at the
    start, the prompt is put in front of the unchanged draft. *)
Theorem handlePromptSelect_without_token ctx rd st promptText :
  (selectionStart ctx = None \/ selectionStart ctx = Some 0%Z ->
   inputValue (state_of (handlePromptSelect ctx rd promptText st))
   = promptText ++ inputValue rd)
  /\ (forall n,
        selectionStart ctx = Some (Z.of_nat n) ->
        (n <= List.length (inputValue rd))%nat ->
        ~ In Js.slash (firstn n (inputValue rd)) ->
        inputValue (state_of (handlePromptSelect ctx rd promptText st))
        = promptText ++ skipn n (inputValue rd)).
Proof.
  split.
  - intros S.
    assert (E : match selectionStart ctx with Some n => n | None => 0%Z end
                = 0%Z) by (destruct S as [-> | ->]; reflexivity).
    rewrite handlePromptSelect_run. cbv zeta. rewrite E.
    unfold state_of. cbn [fst snd inputValue].
    rewrite (substring_prefix (inputValue rd) 0) by (unfold Js.len; lia).
    change (Z.to_nat 0) with 0%nat. cbn [firstn].
    replace (Js.substring_from (inputValue rd) 0) with (inputValue rd)
      by (symmetry; apply (substring_from_suffix (inputValue rd) 0); lia).
    reflexivity.
  - intros n S L H. apply handlePromptSelect_without_slash; assumption.
Qed.

Lemma handlePromptSelect_without_token_witness :
  let ctx := mkCtx false (Some (Js.lit "s1")) [] true (Some 5%Z) in
  let st := mkState [] [] None false None (Js.lit "hello world") true
              false None None false None false in
  inputValue (state_of (handlePromptSelect ctx st (Js.lit "P:") st))
  = Js.lit "P: world".
Proof.
  intros ctx st.
  refine (proj2 (handlePromptSelect_without_token ctx st st (Js.lit "P:"))
            5%nat _ _ _).
  - reflexivity.
  - vm_compute. lia.
  - vm_compute. intuition discriminate.
Defined.

(** X20. The slash command end to end: typing a [/] at the start of the
    draft or after a space or a newline opens the popover; it stays open
    while a filter without [/] is typed after it; selecting a prompt then
    replaces the [/] and the filter by the prompt, keeps the text around
    them and closes the popover. *)
Theorem slash_command_flow ctx st pre tok post promptText :
  pre = [] \/ (exists pre' d, pre = pre' ++ [d]
                              /\ (d = Js.space \/ d = Js.newline)) ->
  ~ In Js.slash tok ->
  selectionStart ctx
  = Some (Z.of_nat (List.length (pre ++ Js.slash :: tok))) ->
  let typedSlash :=
    state_of (handleInputChange st (pre ++ Js.slash :: post)
                (Z.of_nat (List.length (pre ++ [Js.slash]))) st) in
  let typedFilter :=
    state_of (handleInputChange typedSlash (pre ++ Js.slash :: tok ++ post)
                (Z.of_nat (List.length (pre ++ Js.slash :: tok))) typedSlash) in
  let selected :=
    state_of (handlePromptSelect ctx typedFilter promptText typedFilter) in
  showPromptsCommand typedSlash = true
  /\ showPromptsCommand typedFilter = true
  /\ inputValue selected = pre ++ promptText ++ post
  /\ showPromptsCommand selected = false.
Proof.
  intros P T S. cbv zeta.
  assert (A : showPromptsCommand
                (state_of (handleInputChange st (pre ++ Js.slash :: post)
                   (Z.of_nat (List.length (pre ++ [Js.slash]))) st)) = true).
  { rewrite handleInputChange_run. cbv zeta.
    rewrite substring_prefix
      by (unfold Js.len; rewrite !length_app; simpl; lia).
    rewrite Nat2Z.id.
    change (pre ++ Js.slash :: post) with (pre ++ [Js.slash] ++ post).
    rewrite app_assoc, firstn_exact.
    unfold state_of. cbn [fst snd showPromptsCommand].
    replace (slashTriggerb (pre ++ [Js.slash])) with true; [reflexivity|].
    symmetry. apply slashTriggerb_spec.
    destruct P as [-> | (pre' & d & -> & D)]; [left; reflexivity|].
    right. exists pre', d. rewrite <- app_assoc. auto. }
  split; [exact A|].
  set (typedSlash := state_of (handleInputChange st (pre ++ Js.slash :: post)
                       (Z.of_nat (List.length (pre ++ [Js.slash]))) st)) in *.
  assert (V : firstn (List.length (pre ++ Js.slash :: tok))
                (pre ++ Js.slash :: tok ++ post) = pre ++ Js.slash :: tok).
  { change (pre ++ Js.slash :: tok ++ post)
      with (pre ++ (Js.slash :: tok) ++ post).
    rewrite app_assoc. apply firstn_exact. }
  assert (W : skipn (List.length (pre ++ Js.slash :: tok))
                (pre ++ Js.slash :: tok ++ post) = post).
  { change (pre ++ Js.slash :: tok ++ post)
      with (pre ++ (Js.slash :: tok) ++ post).
    rewrite app_assoc. apply skipn_exact. }
  assert (B : handleInputChange typedSlash (pre ++ Js.slash :: tok ++ post)
                (Z.of_nat (List.length (pre ++ Js.slash :: tok))) typedSlash
              = (Done tt,
                 mkState (selectedFiles typedSlash)
                   (pastedArtifactItems typedSlash)
                   (pendingPasteContent typedSlash)
                   (showArtifactForm typedSlash) (contextText typedSlash)
                   (pre ++ Js.slash :: tok ++ post) true
                   (showVariableDialog typedSlash)
                   (pendingPromptGroup typedSlash) (sttError typedSlash)
                   (isRecording typedSlash) (prevSessionIdRef typedSlash)
                   (prevIsRespondingRef typedSlash), [])).
  { rewrite handleInputChange_run. cbv zeta.
    rewrite substring_prefix
      by (unfold Js.len; rewrite !length_app; simpl;
          rewrite ?length_app; lia).
    rewrite Nat2Z.id, V, A.
    replace (Js.includes (pre ++ Js.slash :: tok) Js.slash) with true.
    - destruct (slashTriggerb _); reflexivity.
    - symmetry. apply includes_spec. apply in_or_app. right. left.
      reflexivity. }
  rewrite B. unfold state_of at 1. cbn [fst snd showPromptsCommand].
  split; [reflexivity|].
  unfold state_of at 2 4. cbn [fst snd].
  split.
  - rewrite (handlePromptSelect_token ctx _ _ promptText
               (List.length (pre ++ Js.slash :: tok)) pre tok S).
    + cbn [inputValue]. rewrite W. reflexivity.
    + cbn [inputValue]. rewrite !length_app. simpl. rewrite length_app. lia.
    + cbn [inputValue]. exact V.
    + exact T.
  - rewrite handlePromptSelect_run. reflexivity.
Qed.

Lemma slash_command_flow_witness :
  let ctx := mkCtx false (Some (Js.lit "s1")) [] true (Some 9%Z) in
  let st := initial ctx in
  let typedSlash := state_of (handleInputChange st (Js.lit "see / now") 5 st) in
  let typedFilter :=
    state_of (handleInputChange typedSlash (Js.lit "see /summ now") 9
                typedSlash) in
  let selected :=
    state_of (handlePromptSelect ctx typedFilter (Js.lit "Summarise")
                typedFilter) in
  showPromptsCommand typedSlash = true
  /\ showPromptsCommand typedFilter = true
  /\ inputValue selected = Js.lit "see Summarise now"
  /\ showPromptsCommand selected = false.
Proof.
  intros ctx st.
  refine (slash_command_flow ctx st (Js.lit "see ") (Js.lit "summ")
            (Js.lit " now") (Js.lit "Summarise") _ _ _).
  - right. exists (Js.lit "see"), Js.space. split; [reflexivity | auto].
  - vm_compute. intuition discriminate.
  - reflexivity.
Defined.

(** ** The prompts page *)

(** X21. [fetchPromptGroups] never throws and always ends with the loading
    flag off; the list of prompt groups is replaced exactly when the
    request resolves with an [ok] response whose body can be read, and is
    otherwise left as it was. *)
Theorem fetchPromptGroups_settles fetch st :
  let run := PromptsPage.fetchPromptGroups fetch st in
  resultOf run = Done tt
  /\ PromptsPage.isLoading (stateOf run) = false
  /\ PromptsPage.promptGroups (stateOf run)
     = match fetch with
       | Resolves (mkResponse true (Resolves data)) => data
       | _ => PromptsPage.promptGroups st
       end
  /\ PromptsPage.deletingPrompt (stateOf run) = PromptsPage.deletingPrompt st
  /\ PromptsPage.versionHistoryGroup (stateOf run)
     = PromptsPage.versionHistoryGroup st.
Proof.
  cbv zeta. unfold PromptsPage.fetchPromptGroups.
  destruct fetch as [[[|] [data|e]]|e]; cbn; auto.
Qed.


Lemma pinAll_overwrites id' v w groups :
  PromptsPage.pinAll id' v (PromptsPage.pinAll id' w groups)
  = PromptsPage.pinAll id' v groups.
Proof.
  unfold PromptsPage.pinAll. rewrite map_map. apply map_ext. intros p.
  destruct (Js.eqb (PromptsPage.id p) id') eqn:E; cbn; rewrite E; reflexivity.
Qed.

Lemma pinAll_same id' v groups :
  (forall p, In p groups -> PromptsPage.id p = id' ->
             PromptsPage.is_pinned p = v) ->
  PromptsPage.pinAll id' v groups = groups.
Proof.
  unfold PromptsPage.pinAll. intros H.
  induction groups as [|p l IH]; [reflexivity|]. simpl.
  rewrite IH by (intros q I; apply H; right; exact I).
  destruct (Js.eqb (PromptsPage.id p) id') eqn:E; [|reflexivity].
  apply Js_eqb_eq in E.
  rewrite <- (H p (or_introl eq_refl) E). destruct p; reflexivity.
Qed.



(** ** From the prompts page to the chat input and back *)

(** X24. Use in Chat for a prompt whose text is not empty and holds no
    placeholder leaves the prompts page as it is and navigates to the chat
    with that text; the chat input's effect, finding no placeholder either,
    makes the text the draft and clears the router state, without touching
    the record of the previous session id. *)
Theorem useInChat_prefills_draft detectVariables prompt text pst ctx cst :
  PromptsPage.prompt_text prompt = Some text ->
  text <> [] ->
  detectVariables text = [] ->
  let loc := mkLoc (Some text) (Some (PromptsPage.id prompt))
               (Some (PromptsPage.name prompt)) in
  PromptsPage.handleUseInChat detectVariables prompt pst
  = (Done tt, pst,
     [PromptsPage.Navigate (Js.lit "/chat") (PromptsPage.ChatPrompt loc)])
  /\ inputValue (state_of (sessionEffect detectVariables ctx (Some loc) cst))
     = text
  /\ trace_of (sessionEffect detectVariables ctx (Some loc) cst)
     = [SetTimeout FocusInput 100; NavigateReplaceClearState]
  /\ prevSessionIdRef (state_of (sessionEffect detectVariables ctx (Some loc) cst))
     = prevSessionIdRef cst.
Proof.
  intros T N V. cbv zeta.
  unfold PromptsPage.handleUseInChat. cbv zeta. rewrite T.
  destruct text as [|c cs]; [congruence|]. rewrite V.
  split; [reflexivity|].
  unfold sessionEffect, bind, focusLater. rewrite V.
  repeat split; reflexivity.
Qed.

Lemma useInChat_prefills_draft_witness :
  let dv := fun s : str => if Js.includes s 123 then [Js.lit "x"] else [] in
  let prompt := PromptsPage.mkGroup (Js.lit "g1") (Js.lit "Summary")
                  (Some (Js.lit "Summarise this")) false 0 in
  let ctx := mkCtx false (Some (Js.lit "s1")) [] true None in
  let loc := mkLoc (Some (Js.lit "Summarise this")) (Some (Js.lit "g1"))
               (Some (Js.lit "Summary")) in
  inputValue (state_of (sessionEffect dv ctx (Some loc) (initial ctx)))
  = Js.lit "Summarise this".
Proof.
  intros dv prompt ctx loc.
  assert (N : Js.lit "Summarise this" <> []) by (vm_compute; discriminate).
  exact (proj1 (proj2 (useInChat_prefills_draft dv prompt
                         (Js.lit "Summarise this") PromptsPage.initial ctx
                         (initial ctx) eq_refl N eq_refl))).
Defined.

(** X25. Use in Chat for a prompt with placeholders opens the variable
    dialog on the prompts page and does not navigate; submitting the filled
    prompt from a render that holds the group navigates to the chat with
    the filled text and the group's id and name, closes the dialog and
    drops the group; submitting with no group pending does nothing. *)
Theorem useInChat_with_variables detectVariables prompt processedPrompt pst :
  (0 < List.length
         (detectVariables
            (match PromptsPage.prompt_text prompt with
             | Some text => text
             | None => []
             end)))%nat ->
  let opened := PromptsPage.handleUseInChat detectVariables prompt pst in
  callsOf opened = []
  /\ PromptsPage.showVariableDialog (stateOf opened) = true
  /\ PromptsPage.pendingPromptGroup (stateOf opened) = Some prompt
  /\ (let submitted :=
        PromptsPage.handleVariableSubmit (stateOf opened) processedPrompt
          (stateOf opened) in
      callsOf submitted
      = [PromptsPage.Navigate (Js.lit "/chat")
           (PromptsPage.ChatPrompt
              (mkLoc (Some processedPrompt) (Some (PromptsPage.id prompt))
                 (Some (PromptsPage.name prompt))))]
      /\ PromptsPage.showVariableDialog (stateOf submitted) = false
      /\ PromptsPage.pendingPromptGroup (stateOf submitted) = None)
  /\ (PromptsPage.pendingPromptGroup pst = None ->
      PromptsPage.handleVariableSubmit pst processedPrompt pst
      = (Done tt, pst, [])).
Proof.
  intros V. apply Nat.ltb_lt in V. cbv zeta.
  unfold PromptsPage.handleUseInChat.
  destruct (PromptsPage.prompt_text prompt) as [[|c cs]|]; cbv zeta;
    rewrite V; repeat split; try reflexivity;
    intros N; unfold PromptsPage.handleVariableSubmit; rewrite N;
    reflexivity.
Qed.

Lemma useInChat_with_variables_witness :
  let dv := fun s : str => if Js.includes s 123 then [Js.lit "x"] else [] in
  let prompt := PromptsPage.mkGroup (Js.lit "g1") (Js.lit "Summary")
                  (Some (Js.lit "Summarise {{x}}")) false 0 in
  let opened := PromptsPage.handleUseInChat dv prompt PromptsPage.initial in
  callsOf opened = []
  /\ PromptsPage.showVariableDialog (stateOf opened) = true.
Proof.
  intros dv prompt opened.
  assert (V : (0 < List.length
                     (dv (match PromptsPage.prompt_text prompt with
                          | Some text => text
                          | None => []
                          end)))%nat) by (vm_compute; lia).
  destruct (useInChat_with_variables dv prompt (Js.lit "Summarise all")
              PromptsPage.initial V) as (C & D & _).
  split; [exact C | exact D].
Defined.

Lemma createEnhancedMessage_truthy context :
  Js.truthy (createEnhancedMessage CreateTemplate context) = true.
Proof. destruct context as [[|c cs]|]; reflexivity. Qed.

(** X26. The create-template command of the chat input navigates to the
    AI-assisted builder with a synthesised message that is never empty,
    clears the draft and closes the popover while keeping files, badges
    and context; the prompts page, rendered for a new AI-assisted prompt
    with that message as task description, opens the builder on no edited
    group with the message as its initial message, without any request.
    Any other command does nothing in the chat input. *)
Theorem create_template_reaches_builder context command st promptId pst load :
  let message := createEnhancedMessage CreateTemplate context in
  let run := handleChatCommand CreateTemplate context st in
  let loader := PromptsPage.mkLoader promptId (Some (Js.lit "builder"))
                  (Some (Js.lit "ai-assisted")) in
  let page := PromptsPage.routeEffect (Some loader) (Some message) load pst in
  trace_of run
  = [Navigate (Js.lit "/prompts/new?mode=ai-assisted") (Some message)]
  /\ message <> []
  /\ inputValue (state_of run) = []
  /\ showPromptsCommand (state_of run) = false
  /\ selectedFiles (state_of run) = selectedFiles st
  /\ pastedArtifactItems (state_of run) = pastedArtifactItems st
  /\ contextText (state_of run) = contextText st
  /\ callsOf page = []
  /\ PromptsPage.showBuilder (stateOf page) = true
  /\ PromptsPage.initialMessage (stateOf page) = Some message
  /\ PromptsPage.editingGroup (stateOf page) = None
  /\ PromptsPage.builderInitialMode (stateOf page) = PromptsPage.AiAssisted
  /\ handleChatCommand (OtherCommand command) context st = (Done tt, st, []).
Proof.
  cbv zeta.
  assert (T := createEnhancedMessage_truthy context).
  split; [reflexivity|]. split; [apply truthy_true; exact T|].
  do 5 (split; [reflexivity|]).
  unfold PromptsPage.routeEffect, PromptsPage.isLit.
  cbn [PromptsPage.view PromptsPage.mode PromptsPage.promptId].
  rewrite !Js_eqb_refl.
  replace (Js.eqb (Js.lit "ai-assisted") (Js.lit "edit")) with false
    by reflexivity.
  unfold Js.truthy_opt. rewrite T.
  destruct promptId as [[|c cs]|]; repeat split; reflexivity.
Qed.

(** ** The projects page *)

(** X27. Confirming a project deletion with no project chosen makes no
    call. With a project chosen the handler never throws, asks for the
    deletion of that project and always ends with the deleting flag off;
    when the deletion succeeds the dialog is closed and the project
    dropped, and when it fails the dialog stays open on the same project. *)
Theorem project_handleDeleteConfirm_settles rd delete st :
  let run := ProjectsPage.handleDeleteConfirm rd delete st in
  match ProjectsPage.projectToDelete rd with
  | None => run = (Done tt, st, [])
  | Some project =>
      resultOf run = Done tt
      /\ hd_error (callsOf run)
         = Some (ProjectsPage.DeleteProject (ProjectsPage.id project))
      /\ ProjectsPage.isDeleting (stateOf run) = false
      /\ match delete with
         | Resolves _ =>
             ProjectsPage.isDeleteDialogOpen (stateOf run) = false
             /\ ProjectsPage.projectToDelete (stateOf run) = None
         | Rejects _ =>
             ProjectsPage.isDeleteDialogOpen (stateOf run)
             = ProjectsPage.isDeleteDialogOpen st
             /\ ProjectsPage.projectToDelete (stateOf run)
                = ProjectsPage.projectToDelete st
         end
  end.
Proof.
  cbv zeta. unfold ProjectsPage.handleDeleteConfirm.
  destruct (ProjectsPage.projectToDelete rd) as [project|]; [|reflexivity].
  destruct delete as [[]|e]; cbn; auto.
Qed.

(** X28. Creating a project always ends with the creating flag off, also
    when a call throws, and the exception then propagates. The create
    dialog is closed once the project is created and stays open when the
    creation fails; the list is refreshed only after a creation, and the
    page navigates to the new project only after both calls succeeded. The
    description is sent only when it is not empty. *)
Theorem handleCreateProject_settles name description create refetch st :
  let run := ProjectsPage.handleCreateProject name description create
               refetch st in
  let formData :=
    (Js.lit "name", name)
    :: match description with
       | [] => []
       | _ :: _ => [(Js.lit "description", description)]
       end in
  ProjectsPage.isCreating (stateOf run) = false
  /\ resultOf run
     = match create, refetch with
       | Rejects e, _ => Raised e
       | Resolves _, Rejects e => Raised e
       | Resolves _, Resolves _ => Done tt
       end
  /\ callsOf run
     = ProjectsPage.CreateProject formData
       :: match create with
          | Rejects _ => []
          | Resolves newProject =>
              ProjectsPage.Refetch
              :: match refetch with
                 | Rejects _ => []
                 | Resolves _ =>
                     [ProjectsPage.Navigate
                        (Js.lit "/projects/" ++ ProjectsPage.id newProject)]
                 end
          end
  /\ ProjectsPage.showCreateDialog (stateOf run)
     = match create with
       | Resolves _ => false
       | Rejects _ => ProjectsPage.showCreateDialog st
       end.
Proof.
  cbv zeta. unfold ProjectsPage.handleCreateProject.
  destruct description as [|c cs], create as [p|e], refetch as [[]|e'];
    cbn; auto.
Qed.

Lemma selectedProject_found ctx project :
  ProjectsPage.selectedProject ctx = Some project ->
  In project (ProjectsPage.projects ctx)
  /\ ProjectsPage.projectId ctx = Some (ProjectsPage.id project).
Proof.
  unfold ProjectsPage.selectedProject.
  destruct (ProjectsPage.projectId ctx) as [wanted|]; [|discriminate].
  intros F. apply find_some in F. destruct F as [I E].
  apply Js_eqb_eq in E. subst. auto.
Qed.

(** X29. The selected project is a project of the list with the id of the
    route, and there is none exactly when the route gives no id or no
    project has it. With none selected, starting a new chat does nothing
    at all, while a click on a chat still switches the session and
    navigates, only without setting an active project. *)
Theorem no_selected_project ctx :
  (forall project, ProjectsPage.selectedProject ctx = Some project ->
     In project (ProjectsPage.projects ctx)
     /\ ProjectsPage.projectId ctx = Some (ProjectsPage.id project))
  /\ (ProjectsPage.selectedProject ctx = None
      <-> forall project, In project (ProjectsPage.projects ctx) ->
            ProjectsPage.projectId ctx <> Some (ProjectsPage.id project))
  /\ (ProjectsPage.selectedProject ctx = None ->
      forall sessionId outcome st,
        ProjectsPage.handleStartNewChat ctx outcome st = (Done tt, st, [])
        /\ ProjectsPage.handleChatClick ctx sessionId (Resolves tt) st
           = (Done tt, st,
              [ProjectsPage.HandleSwitchSession sessionId;
               ProjectsPage.Navigate (Js.lit "chat")])).
Proof.
  split; [apply selectedProject_found|]. split.
  - unfold ProjectsPage.selectedProject.
    destruct (ProjectsPage.projectId ctx) as [wanted|].
    + split.
      * intros F project I E. injection E as ->.
        apply (find_none _ _ F) in I. rewrite Js_eqb_refl in I. discriminate.
      * intros H.
        destruct (find _ (ProjectsPage.projects ctx)) as [p|] eqn:F;
          [|reflexivity].
        apply find_some in F. destruct F as [I E]. apply Js_eqb_eq in E.
        exfalso. apply (H p I). congruence.
    + split; [discriminate | reflexivity].
  - intros N sessionId outcome st.
    unfold ProjectsPage.handleStartNewChat, ProjectsPage.handleChatClick.
    rewrite N. split; reflexivity.
Qed.

Lemma no_selected_project_witness :
  let a := ProjectsPage.mkProject (Js.lit "p1") 0 in
  let ctx := ProjectsPage.mkCtx [a] (Some (Js.lit "p9")) in
  ProjectsPage.handleStartNewChat ctx (Resolves tt) ProjectsPage.initial
  = (Done tt, ProjectsPage.initial, []).
Proof.
  intros a ctx.
  exact (proj1 (proj2 (proj2 (no_selected_project ctx)) eq_refl
                  (Js.lit "s1") (Resolves tt) ProjectsPage.initial)).
Defined.
